(** * Token normalisation pipelines of [helpers.py]

    A shallow embedding of the column-cleaning functions of [helpers.py]
    ([replace_series], [replace_if_startswith], [squeeze_series] and the five
    [normalize_*] pipelines) together with the part of the pandas and Python
    string semantics these functions rely on.

    Conventions of the model.
    - A Python [str] is a Rocq [string] whose characters are read as code
      points below 256.  [PyStr.upper] is Python's [str.upper] on the ASCII
      range and leaves code points 128..255 unchanged; [PyStr.is_space] is
      Python's [str.isspace] on code points below 256.
    - A pandas [Series] is a list of (row label, value) pairs; labels are
      the integers of the frame's index and may repeat (they do after
      [explode]).  Every Series is an [object] column: the dtype is not
      tracked, and the [.str] accessor is decided by the values alone.
    - A Python [set] is a [gset]; the order in which [";".join] iterates
      over it is the order of [elements].  The general statements use no
      more of it than [NoDup] and membership, and the evaluations on
      concrete columns only join sets of one element.
    - A regular expression that is a character class is the list of its
      characters (every separator and every pattern of the file is one).
    - A dictionary is the list of its items in insertion order, which is the
      order [for ... in d.items()] visits them in. *)

From Stdlib Require Import Ascii String.
From stdpp Require Import base option list strings pretty countable sorting gmap.

Local Open Scope stdpp_scope.

(** ** Python string methods *)

Module PyStr.

(** [c.isspace()] for a code point below 256. *)
Definition is_space (c : ascii) : bool :=
  match c with
  | "009" | "010" | "011" | "012" | "013"
  | "028" | "029" | "030" | "031" | " " | "133" | "160" => true
  | _ => false
  end%char.

Definition upper_char (c : ascii) : ascii :=
  let n := nat_of_ascii c in
  if (97 <=? n)%nat && (n <=? 122)%nat then ascii_of_nat (n - 32) else c.

(** [s.upper()] *)
Fixpoint upper (s : string) : string :=
  match s with
  | "" => ""
  | String c s' => String (upper_char c) (upper s')
  end.

(** [s.lstrip()] *)
Fixpoint lstrip (s : string) : string :=
  match s with
  | "" => ""
  | String c s' => if is_space c then lstrip s' else s
  end.

(** [s.rstrip()] *)
Fixpoint rstrip (s : string) : string :=
  match s with
  | "" => ""
  | String c s' =>
      match rstrip s' with
      | "" => if is_space c then "" else String c ""
      | r => String c r
      end
  end.

(** [s.strip()] *)
Definition strip (s : string) : string := rstrip (lstrip s).

(** [s.startswith(pattern)] *)
Definition startswith (s pattern : string) : bool := String.prefix pattern s.

(** [sep.join(l)] *)
Definition join (sep : string) (l : list string) : string := String.concat sep l.

(** A character class [[c1c2...]] of a regular expression. *)
Definition char_class := list ascii.

Definition in_class (cls : char_class) (c : ascii) : bool := bool_decide (c ∈ cls).

(** [re.split(cls, s)]: one piece more than there are delimiters, empty
    pieces included. *)
Fixpoint split (cls : char_class) (s : string) : list string :=
  match s with
  | "" => [""]
  | String c s' =>
      if in_class cls c then "" :: split cls s'
      else match split cls s' with
           | [] => [String c ""]
           | w :: ws => String c w :: ws
           end
  end.

(** [re.sub(cls, "", s)] *)
Fixpoint remove_chars (cls : char_class) (s : string) : string :=
  match s with
  | "" => ""
  | String c s' =>
      if in_class cls c then remove_chars cls s' else String c (remove_chars cls s')
  end.

(** [c in s] for a character [c]. *)
Fixpoint contains (c : ascii) (s : string) : bool :=
  match s with
  | "" => false
  | String d s' => bool_decide (c = d) || contains c s'
  end.

End PyStr.

(** ** Values, Series and the pandas operations used by the file *)

(** An element of an [object] column: a string, the missing-value marker
    [np.nan], or another scalar (a number left in a column that pandas
    parsed with mixed types). *)
Inductive cell :=
  | Str (s : string)
  | NaN
  | Num (z : Z).

Global Instance cell_eq_dec : EqDecision cell.
Proof. solve_decision. Defined.

Global Instance cell_countable : Countable cell.
Proof.
  refine (inj_countable'
    (λ c, match c with Str s => inl s | NaN => inr (inl ()) | Num z => inr (inr z) end)
    (λ x, match x with inl s => Str s | inr (inl _) => NaN | inr (inr z) => Num z end) _).
  by intros [].
Defined.

(** [isinstance(x, str)] *)
Definition as_str (c : cell) : option string :=
  match c with Str s => Some s | _ => None end.

Definition is_str (c : cell) : bool := bool_decide (is_Some (as_str c)).

Abbreviation series A := (list (nat * A)).

(** The exceptions the pipelines can raise. *)
Inductive exn := AttributeError.

Inductive result (A : Type) :=
  | Returns (a : A)
  | Raises (e : exn).
Arguments Returns {A} a.
Arguments Raises {A} e.

Global Instance result_ret : MRet result := λ A, Returns.
Global Instance result_bind : MBind result := λ A B f m,
  match m with Returns a => f a | Raises e => Raises e end.

Module Pandas.
Import PyStr.

(** The default index of a frame read from a file: labels [0 .. n-1]. *)
Definition range_index {A} (l : list A) : series A := imap (λ i x, (i, x)) l.

(** Elementwise application, labels kept. *)
Definition elementwise {A B} (f : A → B) (s : series A) : series B :=
  prod_map id f <$> s.

(** The [.str] accessor of an [object] Series checks the inferred type of
    the non-missing values: it is refused when they are all numbers and
    accepted when there is none or when a string is among them. *)
Definition str_accessor_ok (s : series cell) : bool :=
  forallb (λ c, bool_decide (c = NaN)) s.*2 || existsb is_str s.*2.

Definition str_accessor {A} (s : series cell) (k : series A) : result (series A) :=
  if str_accessor_ok s then Returns k else Raises AttributeError.

(** A [.str] method maps the strings and yields [NaN] for anything else. *)
Definition str_method (f : string → string) (c : cell) : cell :=
  match c with Str s => Str (f s) | _ => NaN end.

(** [s.str.strip()], [s.str.upper()] *)
Definition str_strip (s : series cell) : result (series cell) :=
  str_accessor s (elementwise (str_method strip) s).
Definition str_upper (s : series cell) : result (series cell) :=
  str_accessor s (elementwise (str_method upper) s).

(** [s.str.split(sep)]: a list of pieces for a string, [NaN] otherwise. *)
Definition str_split (sep : char_class) (s : series cell)
    : result (series (option (list string))) :=
  str_accessor s (elementwise (λ c, split sep <$> as_str c) s).

(** [s.explode()]: one row per list element under the label of the
    list's row; an empty list and a non-list give one [NaN] row. *)
Definition explode_cell (v : option (list string)) : list cell :=
  match v with
  | Some (x :: l) => Str <$> (x :: l)
  | _ => [NaN]
  end.
Definition explode (s : series (option (list string))) : series cell :=
  s ≫= λ '(i, v), pair i <$> explode_cell v.

(** [s.replace(cls, "", regex=True)]: every match is deleted from the
    string elements. *)
Definition sub_cell (cls : char_class) (c : cell) : cell :=
  match c with Str x => Str (remove_chars cls x) | _ => c end.
Definition replace_regex (cls : char_class) (s : series cell) : series cell :=
  elementwise (sub_cell cls) s.

(** [s.replace(to_replace, value, regex=False)] with a list [to_replace]:
    an element equal to a member of the list becomes [value]. *)
Definition replace_value (to_replace : list string) (value : cell) (c : cell) : cell :=
  match c with
  | Str x => if bool_decide (x ∈ to_replace) then value else c
  | _ => c
  end.
Definition replace (to_replace : list string) (value : cell) (s : series cell) : series cell :=
  elementwise (replace_value to_replace value) s.

(** [s.apply(f)] *)
Definition apply (f : cell → cell) (s : series cell) : series cell := elementwise f s.

(** [s.reset_index()]: the labels become the ordinary column ["index"]
    next to the column of values. *)
Definition reset_index {A} (s : series A) : list (nat * A) := s.

(** [df.groupby("index")]: the distinct keys in ascending order, each with
    the values of its rows in their original order. *)
Fixpoint insert_key (k : nat) (ks : list nat) : list nat :=
  match ks with
  | [] => [k]
  | k' :: ks' =>
      if decide (k < k') then k :: ks
      else if decide (k = k') then ks
      else k' :: insert_key k ks'
  end.
Definition group_keys {A} (df : list (nat * A)) : list nat := foldr insert_key [] df.*1.
Definition group {A} (k : nat) (df : list (nat * A)) : list A :=
  (filter (λ p, p.1 = k) df).*2.
Definition groupby_index {A} (df : list (nat * A)) : list (nat * list A) :=
  (λ k, (k, group k df)) <$> group_keys df.

(** [.agg(set)]: the one remaining column, a set per group. *)
Definition agg_set (g : list (nat * list cell)) : series (gset cell) :=
  elementwise list_to_set g.

(** [df.squeeze()] on a one-column frame: the column as a Series, or the
    bare value when the frame also has exactly one row. *)
Inductive squeezed (A : Type) :=
  | Scalar (x : A)
  | Column (s : series A).
Arguments Scalar {A} x.
Arguments Column {A} s.

Definition squeeze {A} (df : series A) : squeezed A :=
  match df with
  | [(_, x)] => Scalar x
  | _ => Column df
  end.

(** [sep.join(x)] under [.str.join]: [NaN] as soon as an item of [x] is
    not a string. *)
Definition join_set (sep : string) (x : gset cell) : cell :=
  match mapM as_str (elements x) with
  | Some l => Str (join sep l)
  | None => NaN
  end.

(** [.str.join(sep)]: a Python [set] has no attribute [str]. *)
Definition str_join (sep : string) (q : squeezed (gset cell)) : result (series cell) :=
  match q with
  | Scalar _ => Raises AttributeError
  | Column s => Returns (elementwise (join_set sep) s)
  end.

End Pandas.

Import PyStr Pandas.

(** ** The functions of [helpers.py] *)

(** [replace_series(s, replacement_mapping)]: the entries of the mapping are
    applied one after the other, in the order of the dictionary. *)
Definition replace_series (s : series cell)
    (replacement_mapping : list (string * list string)) : series cell :=
  foldl (λ result '(replace_by, to_replace), replace to_replace (Str replace_by) result)
        s replacement_mapping.

(** [replace_if_startswith(x, pattern, replace_by)] *)
Definition replace_if_startswith (x : cell) (pattern replace_by : string) : cell :=
  match x with
  | Str s => if startswith s pattern then Str replace_by else x
  | _ => x
  end.

(** [squeeze_series(s)]; the separator argument is not used by the body,
    which joins with [";"]. *)
Definition squeeze_series (s : series cell) : result (series cell) :=
  str_join ";" (squeeze (agg_set (groupby_index (reset_index s)))).

Definition city_sep : char_class := ["-"; ","; ";"; "("; "/"; "["]%char.
Definition list_sep : char_class := [","; ";"]%char.
Definition skills_sep : char_class := [";"; ","; "("; "/"; "&"]%char.

(** The [replacement_mapping] of [normalize_city_series], in the format
    replace_by : to_replace. *)
Definition city_replacement_mapping : list (string * list string) :=
  [
   ("BARCELONA", ["BARCELLONA"]);
   ("DUBLIN", ["DUBLINO"]);
   ("EUROPE", ["EU"; "EUROPEROPE"]);
   ("FLORENCE", ["FIRENZE"]);
   ("GENOA", ["GENOVA"]);
   ("GENEVE", ["GINEVRA"]);
   ("ITALY", ["ITALY MULTIPLE LOCATION"]);
   ("REMOTE", ["ANCHE REMOTO"; "FULL REMOTE"]);
   ("LONDON", ["LONDAN"; "LONDRA"]);
   ("LAUSSANE", ["LOSANNA"]);
   ("LUXEMBOURG", ["LUSSEMBURGO"]);
   ("MILAN", ["MI"; "MILANO"; "MILANO ROZZANO"; "MILANO OR REMOTE"]);
   ("SWITZERLAND", ["CH"])
  ].

(** The [replacement_mapping] of [normalize_country_series]. *)
Definition country_replacement_mapping : list (string * list string) :=
  [
   ("IT", ["ITALY"; "ITALIA"; "ITALT"; "ITALY"; "ITLAY"; "`ITALY"; "ITALIA O SVIZZERA"; "IRALT"; "MILAN"; "ROMA"; "VENETO"]);
   ("AR", ["ARGENTINA"]);
   ("AU", ["AUSTRALIA"]);
   ("BE", ["BELGIO"]);
   ("FR", ["FRANCE"]);
   ("DE", ["GERMANY"]);
   ("HU", ["HUNGARY"]);
   ("IE", ["IRELAND"]);
   ("IL", ["ISRAEL"]);
   ("JP", ["JO"]);
   ("GB", ["LONDON"; "SCOZIA"; "UK"; "UNITED KINGDOM"]);
   ("US", ["USA"]);
   ("LU", ["LUXEMBOURG"]);
   ("MT", ["MALTA"]);
   ("MD", ["MOLDOVA"]);
   ("NO", ["NORWAY"]);
   ("PL", ["POLAND"]);
   ("RS", ["SERBIA"]);
   ("SK", ["SLOVACCHIA"]);
   ("ES", ["SPAIN"]);
   ("CH", ["SVIZZERA"; "SWITZERLAND"]);
   ("SE", ["SWEDEN"]);
   ("TR", ["TURKEY"]);
   ("UA", ["UKRAINE"])
  ].

(** The [replacement_mapping] of [normalize_skills_series]. *)
Definition skills_replacement_mapping : list (string * list string) :=
  [
   ("BIG DATA", ["BIGDATA"]);
   ("SPARK", ["APACHE SPARK"; "SPARQL"]);
   ("ARTIFICIAL INTELLIGENCE", ["AI"]);
   ("AZURE", ["AZURE AD"; "AZURE PLATFORM"]);
   ("BASH", ["BASH SCRIPTING"]);
   ("DATA SCIENCE", ["DATA SCIENTIST"]);
   ("DATA VISUALIZATION", ["DATA VISUALISATION"]);
   ("BUSINESS ANALYSIS", ["BUSINESS ANALYST"]);
   ("BUSINESS INTELLIGENCE", ["BI MICROSOFT"; "BI"]);
   ("CONFIGURATION", ["CONFIGURATION AND MONITORING"]);
   ("SW DEVELOPMENT", ["DEVELOPERS"; "DEVELOPER"; "ENGINEERING AND SOFTWARE ARCHITECTURE DESIGN"]);
   ("DIGITAL INTELLIGENCE", ["DI"]);
   ("FINTECH", ["FINTECH ANALYSIS"]);
   ("HTML", ["HTML5"]);
   ("JSON", ["JSON LIBRARIES"]);
   ("LEAD", ["LEADERSHIP AND COLLABORATION"; "TEAM LEADER"; "TEAM MANAGEMENT"; "TECHNICAL LEAD"]);
   ("MARKETING", ["MARKETO"]);
   ("DATA", ["MASTER DATA"; "DATA OFFICER"; "DATA ROADMAP"]);
   ("DATA MANAGEMENT", ["MASTER DATA MANAGEMENT"; "DATA MANAGER"]);
   ("PYTHON", ["PHYTON"; "PYTHONI"; "SKILLS:" +:+ String "160"%char "PYTHON"]);
   ("QLIK", ["QLIKVIEW"]);
   ("PREDICTIVE ANALYSIS", ["PREDICTIVE"]);
   ("NOSQL", ["REDIS AND OTHER NOSQL DATA BASE"]);
   ("PROJECT MANAGEMENT", ["PROJECT MANAGER"; "PROJECT MANAGERS"]);
   ("SQL", ["MICROSOFT SQL SERVER"; "MICROSOFT SQLSERVER"; "DB2"; "ORACLEDB"; "POSTGRESQL"; "MYSQL"; "RDBMS"; "DATABASE MYSQL"; "DATABASE SQL"; "POSTEGRESQL"; "POSTGERSQL"; "POSTGESQL"]);
   ("MOBILE", ["MOBILE APPS"; "MOBILE FRAMEWORKS"]);
   ("NLP", ["NATURAL LANGUAGE UNDERSTANDING"; "NATURAL LANGUAGE PROCESSING"]);
   ("CLOUD", ["CLOUD COMPUTING"; "CLOUD DEVELOPMENT"; "GOOGLE CLOUD"; "GOOGLE CLOUD PLATFORM"; "MINIMAL EXPERIENCE WITH CLOUD ADMIN"]);
   ("FUNCTIONAL ANALYSIS", ["FUNCTIONAL ANALYST"; "FUNCTIONAL ANALYSYS"; "ANALISTA FUNZIONALE"]);
   ("CONSULTANCY", ["CONSULENTE"; "CONSULTANTS"; "CONSULTANT"; "CONSULTING"; "CONSULTATIVE BUSINESS DEVELOPMENT"; "SKILLS: CONSULTING"; "SENIOR CONSULTANT"]);
   ("RESOURCE DESCRIPTION FRAMEWORK", ["RDF"]);
   ("API;REST", ["API GATEWAY"; "API REST"; "REST"]);
   ("SAP", ["SAP BW"; "SAP APO"; "SAP BI"; "SAP BO"; "SAP BPC"; "SAP CO"; "SAP CRM"; "SAP FI"; "SAP HANA"; "SAP MM"; "SAP PP"; "SAP SD"; "SAP SYCLO"; "4HANA"]);
   ("ACCENTURE", ["ACCENTURE INTERACTIVE"]);
   ("AGILE", ["AGILE SOFTWARE DEVELOPMENT"]);
   ("ANDROID", ["ANDROID DEVELOPMENT"; "ANDRIOD"; "ANDORID"; "ANDR"; "ANDRIOD SDK"]);
   ("ANGULAR JS", ["ANGULAR.JS"; "ANGULAR2"; "ANGULARJS"; "ANGOLARJS"; "ANGULA"; "ANGULSRJS"]);
   ("ASSET MANAGEMENT", ["AM"]);
   ("AWS;AZURE", ["AWS OR AZURE"]);
   ("BLOCKCHAIN", ["BLOCKCHAIN DEVELOPMENT"]);
   ("BLUE PRISM;AUTOMATION ANYWHERE", ["BLUE PRISM OR AUTOMATION ANYWHERE"]);
   ("CARD PAYMENTS;CASHLESS PAYMENTS", ["CARDS"; "CASHLESS PAYMENTS"]);
   ("CHIEF DATA OFFICER", ["CDO"]);
   ("CSS", ["CSS3"; "CASCADING STYLE SHEETS"]);
   ("D3 JS", ["D3"; "D3JS"]);
   ("DATA ENGINEERING", ["DATA ENGINEER"]);
   ("DATA GOVERNANCE", ["DATA GOVERNANCE SOFTWARE"]);
   ("SECURITY", ["IT SECURITY"; "DEFINE AND SUPPORT IT SECURITY POLICY"; "KNOWLEDGE OF SECURITY SYSTEMS AND ARCHITECTURES"; "SECURITY"]);
   ("DISTRIBUTED COMPUTING", ["DISTRIBUTED ARCHITECTURES"]);
   ("DOCKER;KUBERNETES", ["DOCKER OR KUBERNETES"]);
   ("DATA WAREHOUSING", ["DWH"]);
   ("WEB", ["E UN WEB ARCHITECT"; "WEBLOGIC 103"; "STANNO CERCANDO 2 BACK END E 2 FULL STACK DEVELOPER"]);
   ("CLOUD;AWS;E2C", ["EC2"]);
   ("BLOCKCHAIN;ETHEREUM", ["ETHEREUM"]);
   ("FINANCE;FINANCIAL ANALYSIS", ["FINANCIAL ANALYSIS"]);
   ("FINANCE;FINANCIAL FRAMEWORKS", ["FINANCIAL FRAMEWORKS"]);
   ("GIT;REACT", ["GIT AND A MINUMUM OF 2 YEARS EXPERIENCE WITH REACT"]);
   ("GIT", ["GITHUB"]);
   ("HADOOP", ["HDFS"; "HADHOOP"; "HADO"]);
   ("IT", ["INFORMATICA"; "IT SUPPORT ON MAC AND MICROSOFT HARDWARE"]);
   ("INFRASTRUCTURE", ["INFRASTRUCTURE EXPERIENCE"; "INFRASTRUCTURE INTEGRATION"; "SYSTEM INTEGRATIONS"]);
   ("ISO 27001;IT SECURITY", ["ISO 27001"; "ISO27001LA"; "IEC 27001"]);
   ("JAVA", ["JAVA EE"; "RXJAVA"; "SKILLS: JAVA"; "J2EE"]);
   ("JAVASCRIPT", ["JS"]);
   ("MICROSOFT BI;BUSINESS INTELLIGENCE", ["MICROSOFT BI"]);
   ("POWER BI;BUSINESS INTELLIGENCE", ["POWER BI"]);
   ("MONGODB", ["MONGO"]);
   ("MICROSOFT AD", ["MS AD AUTHENTICATION"]);
   ("NEGOTIATION", ["CONTRACT AND VENDOR NEGOTIATIONS"; "NEGOTIATIONS"]);
   ("SALES", ["PRESALES"; "PRE SALES"; "PRE-SALES AND BUDGET MANAGEMENT"]);
   ("PROJECT MANAGEMENT;PRODUCT MANAGEMENT", ["PROJECT AND PRODUCT MANAGEMENT"]);
   ("RECOMMENDATION", ["RECCOMENDATION"]);
   ("ROBOTIC", ["ROBOTIC PROCESS AUTOMATION"]);
   ("AWS S3;AWS", ["S3"]);
   ("SALESFORCE", ["SALESFORCECOM"]);
   ("SAS", ["SAS VISUAL ANALYTICS"; "SASS"]);
   ("PYTHON;SCIKITLEARN", ["SCIKITLEARN"]);
   ("PYTHON;SCIPY", ["SCIPY"]);
   ("STATISTICS", ["STATISTICAL ANALYSIS"]);
   ("SWIFT", ["SWIFT 5"; "SWIFT SECURITY PROGRAMME"]);
   ("VIRTUAL MACHINES", ["VIRTUAL MACHINES"]);
   ("SECURITY;VULNERABILITY ASSESSMENT", ["VULNERABILITY ASSESSMENT"]);
   ("SECURITY;VULNERABILITY MANAGEMENT", ["VULNERABILITY MANAGEMENT"]);
   ("VUE JS", ["VUE"]);
   ("WEBPACK", ["WEBPACK OR SIMILAR TOOLS"]);
   ("WEBSHEPERE", ["WEBSHEPERE 7"]);
   ("PIG;SPARK", ["PIG AND SPARK"]);
   ("ANALYSIS", ["ANALYSE"; "ANALYSING"]);
   ("BOOTSTRAP", ["BOOTSRAP"; "BOOTRSTRAPS"; "BOOTRSTRAPS"; "BOOSTRAPCSS"; "BOOTSTR"; "BOOTSTR"; "BOOST"]);
   ("CASSANDRA", ["CASANDRA"]);
   ("DATABASE", ["DBMS"; "DBASE"; "DBA"]);
   ("MICROSOFT", ["MICOROSOFT"; "MICORSOFT"; "MICORSOFT EXCEL"])
  ].

(** The [replacement_dict] of [normalize_skills_series_extra]: prefix and
    replacement, in the order of the dictionary. *)
Definition skills_replacement_dict : list (string * string) :=
  [
   ("2G NET", "2G NETWORKS");
   ("3G NET", "3G NETWORKS");
   ("4G NET", "4G NETWORKS");
   ("5G NET", "5G NETWORKS");
   ("6G NET", "6G NETWORKS");
   ("3D STUDIO", "3D STUDIO");
   ("ACCEPTANCE TEST", "ACCEPTANCE TEST");
   ("ACTIONSCR", "ACTIONSCRIPT");
   ("ACTIVE DI", "ACTIVE DIRECTORY");
   ("ACTIVE S", "ACTIVE SERVER");
   ("ACTIVE TEMPLATE", "ACTIVE TEMPLATE");
   ("ACTIVEMATRI", "ACTIVEMATRIX ");
   ("ACTIVITI", "ACTIVITI");
   ("AD HOC", "ADHOC ANALYSIS");
   ("ADHOC", "ADHOC ANALYSIS");
   ("AD ", "ADVERTISEMENT");
   ("ADA ", "ADA");
   ("ADABAS ", "ADABAS");
   ("ADOBE ", "ADOBE");
   ("AGILE ", "AGILE");
   ("AJAX ", "AJAX");
   ("AKKA ", "AKKA");
   ("ALGO", "ALGORITHMS");
   ("ALL IT", "IT");
   ("ALTOVA ", "ALTOVA");
   ("AMAZO", "AWS");
   ("ANDRO", "ANDROID");
   ("ANGULA", "ANGULAR JS");
   ("APACHE HADOOP", "HADOOP");
   ("APACHE HBASE", "HBASE");
   ("APACHE HI", "HIVE");
   ("APACHE K", "KAFKA");
   ("APACHE M", "MAHOUT");
   ("APACHE SP", "SPARK");
   ("APACHE SU", "APACHE SUBVERSION");
   ("APACHE WE", "APACHE WEB SERVER");
   ("API ", "API");
   ("APOLLO ", "APOLLO");
   ("APPLE", "APPLE");
   ("ARTIFIC", "ARTIFICIAL INTELLIGENCE");
   ("ASCENTIAL", "ASCENTIAL DATASTAGE");
   ("ASPEN ", "ASPEN");
   ("ASSET ", "ASSET MANAGEMENT");
   ("ASYNCHR", "ASYNCHRONOUS TRANSFER MODE");
   ("ATLASSIAN", "ATLASSIAN");
   ("AUTODESK", "AUTODESK");
   ("AWS ", "AWS");
   ("AZURE ", "AZURE");
   ("BACK-END", "BACK END");
   ("BACKBONE NETWORKS", "BACKBONE NETWORKS");
   ("BALSAMIC", "BALSAMIQ");
   ("BASE SAS", "SAS");
   ("BEX ", "BEX");
   ("BIG D", "BIG DATA");
   ("BLOCKCHA", "BLOCKCHAIN");
   ("BLOOMBE", "BLOOMBERG");
   ("BLUETOO", "BLUETOOTH");
   ("BOOTSTRAP", "BOOTSTRAP");
   ("CASCADING STYLE", "CSS");
   ("ARCHITEC", "ARCHITECTURE");
   ("ARDUI", "ARDUINO");
   ("ARM ", "ARM");
   ("ART ", "ART");
   ("ASAP ", "ASAP");
   ("ASP ", "ASP");
   ("BASH ", "BASH");
   ("BEHAVIOUR", "BEHAVIOUR ANALYSIS");
   ("BILLIN", "BILLING SYSTEMS");
   ("BITBUC", "BITBUCKET");
   ("BLACKBERRY", "BLACKBERRY");
   ("BMC ", "BMC");
   ("BOOSTRAP", "BOOTSTRAP");
   ("BOURNE", "BOURNE");
   ("BUSINESS O", "BUSINESS OBJECT");
   ("BUSINESSOB", "BUSINESS OBJECT");
   ("BUSINESS S", "BUSINESS SUPPORT");
   ("C ", "C");
   ("C+", "C++");
   ("CAM ", "CAM");
   ("CASCA", "CSS");
   ("CCS ", "CCS");
   ("CASSANDRA", "CASSANDRA");
   ("CD ", "CD");
   ("CELLULAR ", "CELLULAR");
   ("CENTOS ", "CENTOS");
   ("CGI ", "CGI");
   ("CISCO ", "CISCO");
   ("CITRIX ", "CITRIX");
   ("CLOUD ", "CLOUD");
   ("CLOUDE", "CLOUDERA");
   ("CLUSTER ", "DISTRIBUTED COMPUTING");
   ("CLUSTERS", "DISTRIBUTED COMPUTING");
   ("CMMI", "CMMI");
   ("CMS ", "CMS");
   ("COBOL", "COBOL");
   ("COCOA", "COCOA");
   ("CODEIG", "CODEIGNITER");
   ("COGNOS", "COGNOS");
   ("COMMUNICAT", "COMMUNICATION");
   ("CONSUL", "CONSULTANCY");
   ("CONTENT M", "CONTENT MANAGEMENT");
   ("CONTINUOUS D", "CD");
   ("CONTINUOUS I", "CI");
   ("CRM ", "CRM");
   ("CRUD ", "CRUD");
   ("DATA I", "DATA INTEGRATION");
   ("DATA MIN", "DATA MINING");
   ("DATA MO", "DATA MODELLING");
   ("DATA M", "DATA MANAGEMENT");
   ("DATA PRO", "DATA PROCESSING");
   ("DATA PRE-PROCESSING", "DATA PROCESSING");
   ("DATA QUALITY", "DATA MANAGEMENT");
   ("DATA STORAG", "DATA STORAGE");
   ("DATA TRANS", "DATA TRANSFORMATION");
   ("DATA VI", "DATA VISUALIZATION");
   ("DATA WA", "DATA WAREHOUSING");
   ("DATABASE ", "DATABASE");
   ("DEB", "DEBIAN");
   ("DEEP", "DEEP LEARNING");
   ("DEL ", "DEL");
   ("DEPLOYMENT ", "DEPLOYMENT");
   ("DISTR", "DISTRIBUTED COMPUTING");
   ("DJANGO", "DJANGO");
   ("DOCKER", "DOCKER");
   ("DOJO", "DOJO");
   ("DOMAIN NA", "DNS");
   ("DREAMWEAVER", "DREAMWEAVER");
   ("DRUPAL", "DRUPAL");
   ("E-COMMERCE", "E-COMMERCE");
   ("ECOMME", "E-COMMERCE");
   ("ECLIPSE", "ECLIPSE");
   ("ELASTICSEAR", "ELASTICHSEARCH");
   ("EMBED", "EMBEDDED");
   ("ERP ", "ERP");
   ("ETL ", "ETL");
   ("EXTREME PR", "EXTREME PROGRAMMING");
   ("FIREWA", "FIREWALLS");
   ("FLASH ", "FLASH");
   ("FRONT E", "FRONT END");
   ("FRONTE", "FRONT END");
   ("FTTX ", "FTTX");
   ("FULL ST", "SW DEVELOPMENT");
   ("FUNCTIONAL D", "FUNCTIONAL DESIGN");
   ("FUNCTIONAL PRO", "FUNCTIONAL PROGRAMMING");
   ("FUNCTIONAL RE", "FUNCTIONAL REQUIREMENTS");
   ("GAME ", "GAME");
   ("GEOGRAPHIC I", "GEOGRAPHIC INFORMATION SYSTEMS");
   ("GOOGLE CL", "CLOUD");
   ("GRAPHIC", "GRAPHICS");
   ("GUI ", "GUI");
   ("HADOOP ", "HADOOP");
   ("HANA ", "HANA");
   ("HELPDESK", "HELPDESK");
   ("HIBE", "HIBERNATE");
   ("HP ", "HP");
   ("HTM", "HTML");
   ("HTTP", "HTTP");
   ("HYPERION", "HYPERION");
   ("IBM CLOUD", "CLOUD");
   ("IBM COGNO", "COGNOS");
   ("IBM HA", "IBM HARDWARE");
   ("IBM WEB", "IBM WEBSPHERE");
   ("ICT ", "ICT");
   ("IDEE", "IDEE");
   ("INFORMATICA", "IT");
   ("INFORMATION SEC", "SECURITY");
   ("INFORMATION TEC", "IT");
   ("INTEL ", "INTEL");
   ("INTELLIJ", "INTELLIJ");
   ("INTRUSION", "INTRUSION DETECTION");
   ("IONIC ", "IONIC");
   ("IOT ", "IOT");
   ("IP ", "IP");
   ("IPHONE", "IPHONE");
   ("ISO 27", "SECURITY");
   ("ISO 900X", "ISO 900X");
   ("IT ARCHITECTURE", "IT ARCHITECTURE");
   ("IT INFRASTRUCTURE", "INFRASTRUCTURE");
   ("IT PROJECT", "PROJECT MANAGEMENT");
   ("ITIL", "ITIL");
   ("JAK", "JAKARTA TOMCAT");
   ("JASPER", "JASPER");
   ("JAVA ", "JAVA");
   ("JAVASC", "JAVASCRIPT");
   ("JAVASE", "JAVA SERVER");
   ("JBOS", "JBOSS");
   ("JDE", "JDE");
   ("JIRA ", "JIRA");
   ("JOOM", "JOOMLA");
   ("JQU", "JQUERY");
   ("JSC", "JAVASCRIPT");
   ("JSO", "JSON");
   ("JULIA", "JULIA");
   ("JUPITER", "JUPYTER");
   ("JUPYTER", "JUPYTER");
   ("KAFK", "KAFKA");
   ("KERA", "KERAS");
   ("KNOC", "KNOCKOUT JS");
   ("KORN ", "KORN");
   ("LINU", "LINUX");
   ("LOTUS ", "LOTUS");
   ("LSI ", "LSI");
   ("LUA", "LUA");
   ("MACHINE L", "MACHINE LEARNING");
   ("MACROMEDIA", "MACROMEDIA");
   ("MARKET", "MARKETING ");
   ("MASTER DATA", "DATA");
   ("MATLA", "MATLAB");
   ("MCAFEE", "MCAFEE");
   ("MERCURY ", "MERCURY");
   ("MICROSOFT AS", "ASP");
   ("MICROSOFT C", "C#");
   ("MICROSOFT DY", "MICROSOFT DYNAMICS");
   ("MICROSOFT E", "MS EXCEL");
   ("MS EXCEL", "MS EXCEL");
   ("MICROSOFT OF", "MS OFFICE");
   ("MICROSOFT OU", "MS OUTLOOK");
   ("MICROSOFT PO", "MS POWERPOINT");
   ("MICROSOFT SQ", "SQL");
   ("MICROSOFT TRA", "SQL");
   ("MICROSOFT TEAM", "MS TEAMS");
   ("MICROSOFT VISI", "VISIO");
   ("MICROSOFT VISUAL C", "VISUAL C");
   ("MICROSOFT VISUAL S", "VISUAL STUDIO");
   ("MICROSOFT WI", "WINDOWS");
   ("MICROSOFT WO", "MS WORD");
   ("MOBILE ", "MOBILE");
   ("MVC ", "MVC");
   ("MYSQ", "SQL");
   ("NATURAL LA", "NLP");
   ("NETBEAN", "NETBEANS");
   ("NEURAL NE", "NEURAL NET");
   ("NODE", "NODE JS");
   ("OBJECT ORI", "OOP");
   ("OPERATI", "OS");
   ("ORACLE ", "ORACLE");
   ("PHP ", "PHP");
   ("POSTGR", "SQL");
   ("PROJECT MANAGEMENT", "PROJECT MANAGEMENT");
   ("PYTH", "PYTHON");
   ("PYTOR", "PYTORCH");
   ("QLIK", "QLIK");
   ("R ", "R");
   ("REACT", "REACT JS");
   ("RECOVERY", "RECOVERY");
   ("REGRESSION", "REGRESSION");
   ("REGULAR EXP", "REGULAR EXPRESSION");
   ("RELATIONAL", "SQL");
   ("REST ", "API");
   ("RUBY", "RUBY");
   ("SAGE ", "SAGE");
   ("SALESFORCE", "SALESFORCE");
   ("SALES ", "SALES");
   ("SAP ", "SAP");
   ("SAS ", "SAS");
   ("SCALA ", "SCALA");
   ("SCIKI", "SCIKITLEARN");
   ("SCO ", "SCO");
   ("SCRUM", "SCRUM");
   ("SEAGATE ", "SEAGATE");
   ("SEARCH ENG", "SEO");
   ("SECURITY", "SECURITY");
   ("SERVER ", "SERVER ");
   ("SHELL ", "SHELL");
   ("SIEBEL ", "SIEBEL");
   ("SIEMEN", "SIEMENS");
   ("SNOWFLAKE", "SNOWFLAKE");
   ("SOA ", "SOA");
   ("SOAP ", "SOAP");
   ("SOCIAL MED", "SOCIAL MEDIA");
   ("SOFTWARE ", "SW DEVELOPMENT");
   ("SPRING ", "SPRING");
   ("SQL ", "SQL");
   ("STRUTS", "STRUTS");
   ("SUBLIM", "SUBLIME TEXT");
   ("TABLE", "TABLEAU");
   ("TENSORF", "TENSORFLOW");
   ("TERADA", "TERADATA");
   ("TEST ", "TEST");
   ("TIBCO ", "TIBCO");
   ("UBUNT", "UBUNTU");
   ("UI ", "UI");
   ("USER I", "UI");
   ("UNIT T", "TEST");
   ("UNIX", "UNIX");
   ("VISUAL BASIC", "VISUAL BASIC");
   ("VMWARE", "VMWARE");
   ("VULNERABILITY", "VULNERABILITY MANAGEMENT");
   ("WAN ", "WAN");
   ("WEB API", "API");
   ("WEB ", "WEB");
   ("WEBSPHERE", "WEBSPHERE");
   ("WINDOWS AZ", "AZURE");
   ("WIN ", "WINDOWS");
   ("WINDOW", "WINDOWS");
   ("ZEND", "ZEND");
   ("PERSONAL HOME PAGE", "PHP")
  ].

(** [normalize_city_series(col, sep)] *)
Definition normalize_city_series (col : series cell) (sep : option char_class)
    : result (series cell) :=
  let sep := default city_sep sep in
  let replacement_mapping := city_replacement_mapping in
  pieces ← str_split sep col;
  stripped ← str_strip (explode pieces);
  upper ← str_upper stripped;
  let locations := replace [""] NaN (replace_regex [")"; "]"; "?"]%char upper) in
  let locations := replace_series locations replacement_mapping in
  squeeze_series locations.

(** [normalize_country_series(col, sep)] *)
Definition normalize_country_series (col : series cell) (sep : option char_class)
    : result (series cell) :=
  let sep := default city_sep sep in
  let replacement_mapping := country_replacement_mapping in
  pieces ← str_split sep col;
  stripped ← str_strip (explode pieces);
  upper ← str_upper stripped;
  let locations := replace [""] NaN upper in
  let locations := replace_series locations replacement_mapping in
  squeeze_series locations.

(** [normalize_str_separated_series(s, sep)] *)
Definition normalize_str_separated_series (s : series cell) (sep : option char_class)
    : result (series cell) :=
  let sep := default list_sep sep in
  pieces ← str_split sep s;
  stripped ← str_strip (explode pieces);
  s ← str_upper stripped;
  squeeze_series s.

(** [normalize_skills_series(col, sep)] *)
Definition normalize_skills_series (col : series cell) (sep : option char_class)
    : result (series cell) :=
  let sep := default skills_sep sep in
  let replacement_mapping := skills_replacement_mapping in
  pieces ← str_split sep col;
  let cleaned :=
    replace_regex ["'"]%char
      (replace_regex ["034"]%char
        (replace_regex [")"; "]"; "?"; "."]%char (explode pieces))) in
  stripped ← str_strip cleaned;
  upper ← str_upper stripped;
  let skills := replace [""] NaN upper in
  let skills := replace_series skills replacement_mapping in
  parts ← str_split [";"]%char skills;
  skills ← str_strip (explode parts);
  squeeze_series skills.

(** [normalize_skills_series_extra(s, sep)] *)
Definition normalize_skills_series_extra (s : series cell) (sep : option char_class)
    : result (series cell) :=
  s ← normalize_skills_series s sep;
  let replacement_dict := skills_replacement_dict in
  parts ← str_split [";"]%char s;
  let s := explode parts in
  let s := foldl (λ s '(k, v), apply (λ e, replace_if_startswith e k v) s) s replacement_dict in
  squeeze_series s.

(** ** The five field pipelines under one name *)

Inductive field := City | Country | GenericList | SkillBase | SkillExtended.

Global Instance field_eq_dec : EqDecision field.
Proof. solve_decision. Defined.

Definition run (f : field) : series cell → option char_class → result (series cell) :=
  match f with
  | City => normalize_city_series
  | Country => normalize_country_series
  | GenericList => normalize_str_separated_series
  | SkillBase => normalize_skills_series
  | SkillExtended => normalize_skills_series_extra
  end.

(** ** The pipelines read one cell at a time

    What the elementwise steps of a pipeline do to one piece of one cell,
    and what the grouping of [squeeze_series] does to the tokens of one
    row.  [run_rowwise] below relates them to the pipelines. *)

(** [replace_series] on one element. *)
Definition replace_token (replacement_mapping : list (string * list string)) (c : cell) : cell :=
  foldl (λ c '(replace_by, to_replace), replace_value to_replace (Str replace_by) c)
        c replacement_mapping.

(** The loop of [normalize_skills_series_extra] on one element. *)
Definition prefix_token (replacement_dict : list (string * string)) (c : cell) : cell :=
  foldl (λ c '(k, v), replace_if_startswith c k v) c replacement_dict.

(** The cleaning of one exploded piece, before the rewrite. *)
Definition city_piece (c : cell) : cell :=
  replace_value [""] NaN
    (sub_cell [")"; "]"; "?"]%char (str_method upper (str_method strip c))).
Definition country_piece (c : cell) : cell :=
  replace_value [""] NaN (str_method upper (str_method strip c)).
Definition list_piece (c : cell) : cell :=
  str_method upper (str_method strip c).
Definition skills_piece (c : cell) : cell :=
  replace_value [""] NaN
    (str_method upper (str_method strip
      (sub_cell ["'"]%char (sub_cell ["034"]%char (sub_cell [")"; "]"; "?"; "."]%char c))))).

(** The exploded pieces of one cell. *)
Definition pieces (sep : char_class) (c : cell) : list cell :=
  explode_cell (split sep <$> as_str c).

(** The values [squeeze_series] groups under the label of a row: a set,
    joined with [";"]. *)
Definition row_agg (tokens : list cell) : cell := join_set ";" (list_to_set tokens).

Definition city_tokens (sep : option char_class) (c : cell) : list cell :=
  (replace_token city_replacement_mapping ∘ city_piece) <$> pieces (default city_sep sep) c.
Definition country_tokens (sep : option char_class) (c : cell) : list cell :=
  (replace_token country_replacement_mapping ∘ country_piece) <$> pieces (default city_sep sep) c.
Definition list_tokens (sep : option char_class) (c : cell) : list cell :=
  list_piece <$> pieces (default list_sep sep) c.
Definition skills_tokens (sep : option char_class) (c : cell) : list cell :=
  ((replace_token skills_replacement_mapping ∘ skills_piece) <$> pieces (default skills_sep sep) c)
    ≫= λ t, str_method strip <$> pieces [";"]%char t.
Definition skills_extra_tokens (sep : option char_class) (c : cell) : list cell :=
  prefix_token skills_replacement_dict <$> pieces [";"]%char (row_agg (skills_tokens sep c)).

Definition row_tokens (f : field) : option char_class → cell → list cell :=
  match f with
  | City => city_tokens
  | Country => country_tokens
  | GenericList => list_tokens
  | SkillBase => skills_tokens
  | SkillExtended => skills_extra_tokens
  end.

(** The output of a pipeline for one cell. *)
Definition row_of (f : field) (sep : option char_class) (c : cell) : cell :=
  row_agg (row_tokens f sep c).

(** The token stream of a list of rows, each with its tokens. *)
Definition rows_stream {A} (rows : series (list A)) : series A :=
  rows ≫= λ '(i, l), pair i <$> l.

(** A frame of exactly one row. *)
Definition single_row {A} (s : series A) : bool := bool_decide (length s = 1).

(** The separator class a pipeline splits on. *)
Definition effective_sep (f : field) (sep : option char_class) : char_class :=
  match f with
  | City | Country => default city_sep sep
  | GenericList => default list_sep sep
  | SkillBase | SkillExtended => default skills_sep sep
  end.

(** The canonical tokens of an exact-match table: its tags and the parts of
    the tags that hold several, split on [";"]. *)
Definition canonical_tokens (replacement_mapping : list (string * list string)) : list string :=
  replacement_mapping.*1 ++ (replacement_mapping.*1 ≫= split [";"]%char).

(** The variants of an exact-match table. *)
Definition variants (replacement_mapping : list (string * list string)) : list string :=
  replacement_mapping ≫= snd.

(** ** Predicates used in the statements *)

(** A string that does not start with white space. *)
Definition starts_clean (s : string) : Prop :=
  match s with "" => True | String c _ => is_space c = false end.

(** A value that is a string or missing. *)
Definition no_num (c : cell) : Prop := ∀ z, c ≠ Num z.

(** Rows with strictly increasing labels, each with a token at least. *)
Definition rows_ok {A} (rows : series (list A)) : Prop :=
  StronglySorted lt rows.*1 ∧ Forall (λ r, r.2 ≠ []) rows.

(** A Series of strings and missing values. *)
Definition values_ok (s : series cell) : Prop := Forall (λ p, no_num p.2) s.

(** A value that is not a string with a [";"] in it. *)
Definition no_semicolon (c : cell) : Prop :=
  match c with Str s => contains ";" s = false | _ => True end.

(** The pipeline splits its cells on a class that holds [";"]; the skill
    pipelines split their tokens on [";"] whatever the class. *)
Definition semicolon_split (f : field) (sep : option char_class) : Prop :=
  match f with
  | SkillBase | SkillExtended => True
  | _ => ";"%char ∈ effective_sep f sep
  end.

(** The cleaning a pipeline applies to an exploded piece. *)
Definition clean_piece (f : field) : cell → cell :=
  match f with
  | City => city_piece
  | Country => country_piece
  | GenericList => list_piece
  | SkillBase | SkillExtended => skills_piece
  end.

(** The tokens of a cell as they reach the rewrite. *)
Definition cleaned_pieces (f : field) (sep : option char_class) (c : cell) : list cell :=
  clean_piece f <$> pieces (effective_sep f sep) c.

(** The exact-match table and the prefix table of a pipeline. *)
Definition exact_table (f : field) : list (string * list string) :=
  match f with
  | City => city_replacement_mapping
  | Country => country_replacement_mapping
  | GenericList => []
  | SkillBase | SkillExtended => skills_replacement_mapping
  end.
Definition prefix_table (f : field) : list (string * string) :=
  match f with
  | SkillExtended => skills_replacement_dict
  | _ => []
  end.

(** A token that is no variant of the exact-match table and starts with no
    prefix of the prefix table. *)
Definition unmatched (f : field) (t : string) : Prop :=
  (t ∉ variants (exact_table f))
  ∧ Forall (λ r, startswith t r.1 = false) (prefix_table f).

(** The text a piece is cleaned to, before an empty text is replaced. *)
Definition piece_text (f : field) (p : string) : string :=
  match f with
  | City => remove_chars [")"; "]"; "?"]%char (upper (strip p))
  | Country | GenericList => upper (strip p)
  | SkillBase | SkillExtended =>
      upper (strip (remove_chars ["'"]%char (remove_chars ["034"]%char
        (remove_chars [")"; "]"; "?"; "."]%char p))))
  end.

(** The exact-match tables of the file. *)
Definition exact_tables : list (list (string * list string)) :=
  [city_replacement_mapping; country_replacement_mapping; skills_replacement_mapping].

(** Every tag of a table is left as it is by the table. *)
Definition tags_fixed (m : list (string * list string)) : Prop :=
  Forall (λ k, replace_token m (Str k) = Str k) m.*1.

(** ** Predicates on characters *)

(** Every character of a string passes a test. *)
Fixpoint all_chars (P : ascii → bool) (s : string) : bool :=
  match s with
  | "" => true
  | String c s' => P c && all_chars P s'
  end.

(** A lower-case letter of the ASCII range. *)
Definition is_lower (c : ascii) : bool :=
  let n := nat_of_ascii c in (97 <=? n)%nat && (n <=? 122)%nat.

(** A string without lower-case ASCII letter. *)
Definition no_lower (s : string) : bool := all_chars (λ c, negb (is_lower c)) s.

(** A string without a character of a class. *)
Definition clear_of (cls : char_class) (s : string) : bool :=
  all_chars (λ c, negb (in_class cls c)) s.

(** A value that is not a string with a lower-case letter in it. *)
Definition capitals (c : cell) : Prop :=
  match c with Str s => no_lower s = true | _ => True end.

(** A class that holds a letter if and only if it holds its capital. *)
Definition case_blind (cls : char_class) : Prop :=
  ∀ c, in_class cls (upper_char c) = in_class cls c.

(** A cell with its text in capitals. *)
Definition upper_cell (c : cell) : cell :=
  match c with Str s => Str (upper s) | _ => c end.

(** ** Dates: [normalize_date] and [get_date_by_format] *)

(** The regular expressions of [normalize_date]: literal characters, [\d],
    ranges [[a-b]], sequence, alternative [r1|r2], option [r?] and
    repetition [r{n}].  Groups only name parts of a match and are left
    out. *)
Inductive regex :=
  | Chr (c : ascii)
  | Digit
  | Range (lo hi : ascii)
  | Seq (r1 r2 : regex)
  | Alt (r1 r2 : regex)
  | Opt (r : regex)
  | Rep (n : nat) (r : regex).

Definition in_range (lo hi c : ascii) : bool :=
  (nat_of_ascii lo <=? nat_of_ascii c)%nat && (nat_of_ascii c <=? nat_of_ascii hi)%nat.

(** [\d] on a code point below 256. *)
Definition is_digit (c : ascii) : bool := in_range "0" "9" c.

(** A backtracking matcher: [match_k r s k] tries the ways [r] matches at
    the start of [s], first alternative and longest option first, and asks
    [k] about what is left. *)
Fixpoint match_k (r : regex) (s : string) (k : string → bool) : bool :=
  match r with
  | Chr c =>
      match s with String d s' => bool_decide (c = d) && k s' | "" => false end
  | Digit =>
      match s with String d s' => is_digit d && k s' | "" => false end
  | Range lo hi =>
      match s with String d s' => in_range lo hi d && k s' | "" => false end
  | Seq r1 r2 => match_k r1 s (λ s', match_k r2 s' k)
  | Alt r1 r2 => match_k r1 s k || match_k r2 s k
  | Opt r => match_k r s k || k s
  | Rep n r =>
      (fix rep (n : nat) (s : string) : bool :=
         match n with
         | 0 => k s
         | S n' => match_k r s (rep n')
         end) n s
  end.

(** [re.match(r, s)] as a truth value: [r] matches at the start of [s]. *)
Definition re_match (r : regex) (s : string) : bool := match_k r s (λ _, true).

(** [re.sub(cls, by, s)] for a replacement of one character. *)
Fixpoint sub_chars (cls : char_class) (by_ : ascii) (s : string) : string :=
  match s with
  | "" => ""
  | String c s' => String (if in_class cls c then by_ else c) (sub_chars cls by_ s')
  end.

Fixpoint zeros (n : nat) : string :=
  match n with 0 => "" | S n' => String "0" (zeros n') end.

(** [s.zfill(width)]: zeros on the left, after a leading sign. *)
Definition zfill (width : nat) (s : string) : string :=
  let n := String.length s in
  if (width <=? n)%nat then s
  else match s with
       | String c s' =>
           if bool_decide (c = "+"%char) || bool_decide (c = "-"%char)
           then String c (zeros (width - n) +:+ s')
           else zeros (width - n) +:+ s
       | "" => zeros width
       end.

(** [str(x)] for a value of a column. *)
Definition py_str (c : cell) : string :=
  match c with
  | Str s => s
  | NaN => "nan"
  | Num z => pretty z
  end.

(** The result of the date functions: a string, or the [ValueError] of an
    unpacking [a, b = ...] whose right-hand side has another length. *)
Inductive date_result :=
  | Date (d : string)
  | ValueError.

(** [((0?[1-9])|(1[0-2]))], the group of the months and of the days. *)
Definition month_re : regex :=
  Alt (Seq (Opt (Chr "0")) (Range "1" "9")) (Seq (Chr "1") (Range "0" "2")).

(** [(\d{4})] *)
Definition year_re : regex := Rep 4 Digit.

Definition dash : regex := Chr "-".

(** The list [patterns] of [normalize_date]. *)
Definition patterns : list (string * regex) :=
  [ ("yyyy-mm-dd", Seq year_re (Seq dash (Seq month_re (Seq dash month_re))));
    ("dd-mm-yyyy", Seq month_re (Seq dash (Seq month_re (Seq dash year_re))));
    ("mm-yyyy", Seq month_re (Seq dash year_re));
    ("yyyy-mm", Seq year_re (Seq dash month_re));
    ("yyyy", year_re) ].

(** [get_date_by_format(s, d_format)] *)
Definition get_date_by_format (s d_format : string) : date_result :=
  let parts := split ["-"%char] s in
  let ymd :=
    if String.eqb d_format "yyyy" then Some (s, "01", "01")
    else if String.eqb d_format "mm-yyyy" then
      match parts with [m; y] => Some (y, m, "01") | _ => None end
    else if String.eqb d_format "yyyy-mm" then
      match parts with [y; m] => Some (y, m, "01") | _ => None end
    else if String.eqb d_format "dd-mm-yyyy" then
      match parts with [d; m; y] => Some (y, m, d) | _ => None end
    else if String.eqb d_format "yyyy-mm-dd" then
      match parts with [y; m; d] => Some (y, m, d) | _ => None end
    else Some ("0001", "01", "01") in
  match ymd with
  | Some (y, m, d) => Date (join "-" [zfill 4 y; zfill 2 m; zfill 2 d])
  | None => ValueError
  end.

(** [normalize_date(s)] *)
Definition normalize_date (x : cell) : date_result :=
  let full_date := "0001-01-01" in
  let s := sub_chars ["/"%char] "-" (strip (py_str x)) in
  match List.find (λ p, re_match p.2 s) patterns with
  | Some (d_format, _) => get_date_by_format s d_format
  | None => Date full_date
  end.

(** The text [normalize_date] matches against its patterns: [str(s)]
    stripped, with ["/"] replaced by ["-"]. *)
Definition date_text (x : cell) : string :=
  sub_chars ["/"%char] "-" (strip (py_str x)).

Definition starts_with_digit (s : string) : bool :=
  match s with String c _ => is_digit c | "" => false end.

(** The texts of a month, and of a day up to the twelfth, with or without
    a leading zero. *)
Definition month_texts : list string :=
  ["1"; "2"; "3"; "4"; "5"; "6"; "7"; "8"; "9";
   "01"; "02"; "03"; "04"; "05"; "06"; "07"; "08"; "09"; "10"; "11"; "12"].

(** Four digits. *)
Definition is_year (y : string) : bool :=
  (String.length y =? 4)%nat && all_chars is_digit y.

(** A number below one hundred, written with two digits. *)
Definition two_digits (n : nat) : string :=
  String (ascii_of_nat (48 + n / 10)) (String (ascii_of_nat (48 + n mod 10)) "").

(** The tables and the loops over them are unfolded on request only. *)
Global Arguments city_replacement_mapping : simpl never.
Global Arguments country_replacement_mapping : simpl never.
Global Arguments skills_replacement_mapping : simpl never.
Global Arguments skills_replacement_dict : simpl never.
Global Arguments replace_token : simpl never.
Global Arguments prefix_token : simpl never.
Global Arguments row_agg : simpl never.

(** * Properties *)

(** ** Strings *)

Section strings.
Implicit Types (s t : string) (c : ascii) (cls : char_class).

Lemma split_nonempty cls s : split cls s ≠ [].
Proof. induction s as [|c s IH]; simpl; [done|]. repeat case_match; done. Qed.

Lemma in_class_spec cls c : in_class cls c = true ↔ c ∈ cls.
Proof. unfold in_class. apply bool_decide_eq_true. Qed.

Lemma in_class_single c d : in_class [c] d = bool_decide (c = d).
Proof.
  unfold in_class. apply bool_decide_ext.
  rewrite list_elem_of_singleton. naive_solver.
Qed.

(** No piece of a split holds a delimiter. *)
Lemma split_no_sep cls c s :
  c ∈ cls → Forall (λ p, contains c p = false) (split cls s).
Proof.
  intros Hc. induction s as [|d s IH]; cbn; [by repeat constructor|].
  destruct (in_class cls d) eqn:Hd; [by constructor|].
  destruct IH as [|w ws Hw Hws]; constructor; try done; cbn.
  - rewrite orb_false_r. apply bool_decide_eq_false. intros <-.
    apply in_class_spec in Hc. congruence.
  - rewrite Hw, orb_false_r. apply bool_decide_eq_false. intros <-.
    apply in_class_spec in Hc. congruence.
Qed.

Lemma split_single c s : contains c s = false → split [c] s = [s].
Proof.
  induction s as [|d s IH]; cbn [split contains]; [done|].
  intros [Hd Hs]%orb_false_elim. rewrite in_class_single, Hd.
  by rewrite IH.
Qed.

Lemma split_app_sep c s t :
  contains c s = false → split [c] (s +:+ String c t) = s :: split [c] t.
Proof.
  induction s as [|d s IH].
  - intros _. change ("" +:+ String c t) with (String c t).
    cbn [split]. rewrite in_class_single. by rewrite bool_decide_eq_true_2.
  - change (String d s +:+ String c t) with (String d (s +:+ String c t)).
    cbn [split contains].
    intros [Hd Hs]%orb_false_elim. rewrite in_class_single, Hd.
    by rewrite IH.
Qed.

(** Splitting a join gives the joined strings back. *)
Lemma split_join c (l : list string) :
  l ≠ [] → Forall (λ p, contains c p = false) l →
  split [c] (join (String c "") l) = l.
Proof.
  intros Hl Hf. induction Hf as [|x l Hx Hf IH]; [done|].
  destruct l as [|y l]; [by apply split_single|].
  change (join (String c "") (x :: y :: l))
    with (x +:+ String c (join (String c "") (y :: l))).
  rewrite split_app_sep by done. by rewrite IH.
Qed.

(** *** Characters *)

Lemma is_space_upper_char c : is_space (upper_char c) = is_space c.
Proof. by destruct c as [[] [] [] [] [] [] [] []]. Qed.

Lemma semicolon_upper_char c :
  bool_decide (";"%char = upper_char c) = bool_decide (";"%char = c).
Proof. by destruct c as [[] [] [] [] [] [] [] []]. Qed.

(** *** Stripping *)

Lemma lstrip_starts_clean s : starts_clean (lstrip s).
Proof. induction s as [|c s IH]; cbn; [done|]. by destruct (is_space c) eqn:E. Qed.

Lemma lstrip_id s : starts_clean s → lstrip s = s.
Proof. destruct s as [|c s]; cbn; [done|]. by intros ->. Qed.

Lemma rstrip_starts_clean s : starts_clean s → starts_clean (rstrip s).
Proof.
  destruct s as [|c s]; cbn; [done|]. intros Hc.
  destruct (rstrip s); [by rewrite Hc|done].
Qed.

Lemma rstrip_idemp s : rstrip (rstrip s) = rstrip s.
Proof.
  induction s as [|c s IH]; cbn; [done|].
  destruct (rstrip s) as [|d r] eqn:E.
  - destruct (is_space c) eqn:Hc; cbn; [done|]. by rewrite Hc.
  - change (rstrip (String c (String d r)))
      with (match rstrip (String d r) with
            | "" => if is_space c then "" else String c ""
            | r0 => String c r0
            end).
    by rewrite IH.
Qed.

Lemma strip_idemp s : strip (strip s) = strip s.
Proof.
  unfold strip.
  rewrite (lstrip_id (rstrip (lstrip s)))
    by apply rstrip_starts_clean, lstrip_starts_clean.
  apply rstrip_idemp.
Qed.

Lemma lstrip_upper s : lstrip (upper s) = upper (lstrip s).
Proof.
  induction s as [|c s IH]; cbn; [done|].
  rewrite is_space_upper_char. by destruct (is_space c).
Qed.

Lemma rstrip_upper s : rstrip (upper s) = upper (rstrip s).
Proof.
  induction s as [|c s IH]; cbn; [done|].
  rewrite IH, is_space_upper_char.
  destruct (rstrip s); cbn; [by destruct (is_space c)|done].
Qed.

Lemma strip_upper s : strip (upper s) = upper (strip s).
Proof. unfold strip. by rewrite lstrip_upper, rstrip_upper. Qed.

(** A cleaned piece is not changed by another [strip]. *)
Lemma strip_upper_strip s : strip (upper (strip s)) = upper (strip s).
Proof. by rewrite strip_upper, strip_idemp. Qed.

(** *** The cleaning steps introduce no [";"] *)

Lemma contains_lstrip c s : contains c s = false → contains c (lstrip s) = false.
Proof.
  induction s as [|d s IH]; cbn; [done|].
  intros [Hd Hs]%orb_false_elim. destruct (is_space d); [by apply IH|].
  cbn. by rewrite Hd, Hs.
Qed.

Lemma contains_rstrip c s : contains c s = false → contains c (rstrip s) = false.
Proof.
  induction s as [|d s IH]; cbn; [done|].
  intros [Hd Hs]%orb_false_elim. specialize (IH Hs).
  destruct (rstrip s) as [|e r].
  - destruct (is_space d); cbn; [done|]. by rewrite Hd.
  - cbn in *. by rewrite Hd, IH.
Qed.

Lemma contains_strip c s : contains c s = false → contains c (strip s) = false.
Proof. intros H. by apply contains_rstrip, contains_lstrip. Qed.

Lemma contains_remove_chars c cls s :
  contains c s = false → contains c (remove_chars cls s) = false.
Proof.
  induction s as [|d s IH]; cbn; [done|].
  intros [Hd Hs]%orb_false_elim. destruct (in_class cls d); [by apply IH|].
  cbn. by rewrite Hd, IH.
Qed.

Lemma contains_upper s :
  contains ";" s = false → contains ";" (upper s) = false.
Proof.
  induction s as [|d s IH]; cbn; [done|].
  intros [Hd Hs]%orb_false_elim. by rewrite semicolon_upper_char, Hd, IH.
Qed.

End strings.

(** ** Series and token streams *)

Lemma elementwise_cons {A B} (f : A → B) i x s :
  elementwise f ((i, x) :: s) = (i, f x) :: elementwise f s.
Proof. done. Qed.

Lemma elementwise_app {A B} (f : A → B) s1 s2 :
  elementwise f (s1 ++ s2) = elementwise f s1 ++ elementwise f s2.
Proof. apply fmap_app. Qed.

Lemma elementwise_labels {A B} (f : A → B) s : (elementwise f s).*1 = s.*1.
Proof. induction s as [|[i x] s IH]; [done|]. cbn. by f_equal. Qed.

Lemma elementwise_length {A B} (f : A → B) s : length (elementwise f s) = length s.
Proof. apply length_fmap. Qed.

Lemma elementwise_ext {A B} (f g : A → B) s :
  (∀ x, f x = g x) → elementwise f s = elementwise g s.
Proof. intros E. apply list_fmap_ext. intros _ [i x] _. cbn. by rewrite E. Qed.

Lemma elementwise_compose {A B C} (f : A → B) (g : B → C) s :
  elementwise g (elementwise f s) = elementwise (g ∘ f) s.
Proof. induction s as [|[i x] s IH]; [done|]. cbn. by f_equal. Qed.

Lemma elementwise_pairs {A B} (f : A → B) i (l : list A) :
  elementwise f (pair i <$> l) = pair i <$> (f <$> l).
Proof. induction l as [|x l IH]; [done|]. cbn. by f_equal. Qed.

Lemma elementwise_lookup {A B} (f : A → B) s n i x :
  s !! n = Some (i, x) → elementwise f s !! n = Some (i, f x).
Proof. intros E. unfold elementwise. by rewrite list_lookup_fmap, E. Qed.

Lemma rows_stream_cons {A} i (l : list A) rows :
  rows_stream ((i, l) :: rows) = (pair i <$> l) ++ rows_stream rows.
Proof. done. Qed.

Lemma elementwise_rows_stream {A B} (f : A → B) rows :
  elementwise f (rows_stream rows) = rows_stream (elementwise (fmap f) rows).
Proof.
  induction rows as [|[i l] rows IH]; [done|].
  rewrite elementwise_cons, !rows_stream_cons, elementwise_app, IH.
  by rewrite elementwise_pairs.
Qed.

Lemma bind_elementwise {A B} (g : A → list B) (s : series A) :
  (s ≫= λ '(i, x), pair i <$> g x) = rows_stream (elementwise g s).
Proof. induction s as [|[i x] s IH]; [done|]. cbn. by f_equal. Qed.

Lemma bind_rows_stream {A B} (g : A → list B) (rows : series (list A)) :
  (rows_stream rows ≫= λ '(i, x), pair i <$> g x)
  = rows_stream (elementwise (λ l, l ≫= g) rows).
Proof.
  induction rows as [|[i l] rows IH]; [done|].
  rewrite elementwise_cons, !rows_stream_cons, bind_app, IH. f_equal.
  clear IH. induction l as [|x l IH]; [done|].
  cbn. rewrite fmap_app. by f_equal.
Qed.

Lemma rows_stream_labels {A} (rows : series (list A)) k :
  k ∈ (rows_stream rows).*1 → k ∈ rows.*1.
Proof.
  induction rows as [|[i l] rows IH]; [done|].
  rewrite rows_stream_cons, fmap_app, elem_of_app, fmap_cons, elem_of_cons.
  intros [H|H]; [left|right; by apply IH].
  apply list_elem_of_fmap in H as [[j x] [-> H]].
  by apply list_elem_of_fmap in H as [y [[= -> ->] _]].
Qed.

Lemma range_index_labels {A} (l : list A) : (range_index l).*1 = seq 0 (length l).
Proof.
  unfold range_index.
  enough (∀ n, (imap (λ i x, (n + i, x)) l).*1 = seq n (length l)) as H by apply (H 0).
  induction l as [|x l IH]; intros n; [done|].
  cbn. f_equal; [lia|]. rewrite <-IH.
  f_equal. apply imap_ext. intros i y _. cbn. f_equal. lia.
Qed.

Lemma range_index_sorted {A} (l : list A) : StronglySorted lt (range_index l).*1.
Proof.
  rewrite range_index_labels. generalize 0.
  induction (length l) as [|m IH]; intros n; cbn; constructor; [apply IH|].
  apply Forall_forall. intros k Hk%elem_of_seq. lia.
Qed.

Lemma range_index_length {A} (l : list A) : length (range_index l) = length l.
Proof. apply length_imap. Qed.

Lemma range_index_lookup {A} (l : list A) i x :
  l !! i = Some x → range_index l !! i = Some (i, x).
Proof. intros E. unfold range_index. by rewrite list_lookup_imap, E. Qed.

(** ** [squeeze_series] on the stream of rows with increasing labels *)

Lemma group_app {A} k (s1 s2 : series A) :
  group k (s1 ++ s2) = group k s1 ++ group k s2.
Proof. unfold group. by rewrite filter_app, fmap_app. Qed.

Lemma group_pairs_same {A} i (l : list A) : group i (pair i <$> l) = l.
Proof.
  induction l as [|x l IH]; [done|].
  unfold group in *. rewrite fmap_cons, filter_cons_True by done.
  rewrite fmap_cons. by f_equal.
Qed.

Lemma group_absent {A} k (s : series A) : k ∉ s.*1 → group k s = [].
Proof.
  induction s as [|[i x] s IH]; [done|].
  rewrite fmap_cons, not_elem_of_cons. intros [Hne Hk].
  unfold group in *. rewrite filter_cons_False by (cbn in *; congruence). by apply IH.
Qed.

Lemma group_keys_app {A} (s1 s2 : series A) :
  group_keys (s1 ++ s2) = foldr insert_key (group_keys s2) s1.*1.
Proof. unfold group_keys. by rewrite fmap_app, foldr_app. Qed.

Lemma insert_key_below k ks : Forall (lt k) ks → insert_key k ks = k :: ks.
Proof. destruct 1; [done|]. cbn. by rewrite decide_True. Qed.

Lemma insert_key_head k ks : insert_key k (k :: ks) = k :: ks.
Proof. cbn. rewrite decide_False by lia. by rewrite decide_True. Qed.

Lemma group_keys_pairs {A} i (l : list A) ks :
  l ≠ [] → Forall (lt i) ks → foldr insert_key ks (pair i <$> l).*1 = i :: ks.
Proof.
  intros Hl Hks. induction l as [|x [|y l] IH]; [done| |].
  - cbn. by apply insert_key_below.
  - rewrite !fmap_cons. cbn [foldr fst].
    rewrite !fmap_cons in IH. cbn [foldr fst] in IH.
    rewrite IH by done. apply insert_key_head.
Qed.

Section grouping.
Context {A : Type}.
Implicit Types rows : series (list A).

Lemma rows_ok_cons i l rows :
  rows_ok ((i, l) :: rows) → l ≠ [] ∧ Forall (lt i) rows.*1 ∧ rows_ok rows.
Proof.
  intros [Hs Hn]. rewrite fmap_cons in Hs.
  apply StronglySorted_inv in Hs as [Hs Hi]. apply Forall_cons in Hn as [Hl Hn].
  by repeat split.
Qed.

Lemma group_keys_rows_stream rows :
  rows_ok rows → group_keys (rows_stream rows) = rows.*1.
Proof.
  induction rows as [|[i l] rows IH]; [done|].
  intros (Hl & Hi & Hok)%rows_ok_cons.
  rewrite rows_stream_cons, group_keys_app, IH by done.
  by apply group_keys_pairs.
Qed.

Lemma groupby_rows_stream rows :
  rows_ok rows → groupby_index (rows_stream rows) = rows.
Proof.
  intros Hok. unfold groupby_index. rewrite group_keys_rows_stream by done.
  induction rows as [|[i l] rows IH]; [done|].
  apply rows_ok_cons in Hok as (Hl & Hi & Hok).
  assert (i ∉ (rows_stream rows).*1) as Hfresh.
  { intros Hin%rows_stream_labels.
    rewrite Forall_forall in Hi. specialize (Hi _ Hin). lia. }
  rewrite fmap_cons, fmap_cons, rows_stream_cons. cbn [fst]. f_equal.
  - by rewrite group_app, group_pairs_same, group_absent, app_nil_r.
  - rewrite <-IH at 2 by done. apply list_fmap_ext. intros _ k Hk%list_elem_of_lookup_2.
    f_equal. rewrite group_app, (group_absent k (pair i <$> l)); [done|].
    rewrite <-list_fmap_compose. intros Hin%list_elem_of_fmap.
    destruct Hin as [y [-> _]]. cbn in Hk.
    rewrite Forall_forall in Hi. specialize (Hi _ Hk). lia.
Qed.

End grouping.

Lemma squeeze_series_rows (rows : series (list cell)) :
  rows_ok rows →
  squeeze_series (rows_stream rows)
  = if single_row rows then Raises AttributeError
    else Returns (elementwise row_agg rows).
Proof.
  intros Hok. unfold squeeze_series, reset_index, agg_set.
  rewrite groupby_rows_stream by done.
  assert (elementwise (join_set ";") (elementwise list_to_set rows)
          = elementwise row_agg rows) as <-.
  { rewrite elementwise_compose. by apply elementwise_ext. }
  by destruct rows as [|[i l] [|r rows]].
Qed.

(** ** The [.str] accessor on token streams *)

Lemma str_accessor_values_ok {A} s (k : series A) :
  values_ok s → str_accessor s k = Returns k.
Proof.
  intros Hs. unfold str_accessor.
  enough (str_accessor_ok s = true) as -> by done.
  unfold str_accessor_ok.
  induction Hs as [|[i c] s Hc Hs IH]; [done|].
  rewrite fmap_cons. cbn [snd forallb existsb]. cbn in Hc.
  destruct c as [x| |z]; [by rewrite orb_true_r|done|by destruct (Hc z)].
Qed.

Lemma no_num_Str s : no_num (Str s).
Proof. by intros z. Qed.
Lemma no_num_NaN : no_num NaN.
Proof. by intros z. Qed.
Lemma no_num_str_method f c : no_num (str_method f c).
Proof. destruct c as [x| |n]; by intros z. Qed.
Lemma no_num_sub_cell cls c : no_num c → no_num (sub_cell cls c).
Proof. destruct c as [x| |n]; intros H z; [done|done|by destruct (H n)]. Qed.
Lemma no_num_replace_value vs v c : no_num v → no_num c → no_num (replace_value vs v c).
Proof. destruct c; cbn; [by case_bool_decide|done|done]. Qed.
Lemma no_num_replace_token m c : no_num c → no_num (replace_token m c).
Proof.
  unfold replace_token. revert c.
  induction m as [|[k vs] m IH]; intros c Hc; [done|].
  cbn. apply IH, no_num_replace_value; [apply no_num_Str|done].
Qed.
Lemma no_num_join_set sep x : no_num (join_set sep x).
Proof. unfold join_set. by case_match; intros z. Qed.
Lemma no_num_explode_cell v : Forall no_num (explode_cell v).
Proof.
  destruct v as [[|x l]|]; cbn; repeat constructor; try apply no_num_NaN; try apply no_num_Str.
  apply Forall_fmap, Forall_true. intros y. apply no_num_Str.
Qed.

Lemma no_num_row_agg l : no_num (row_agg l).
Proof. apply no_num_join_set. Qed.
Lemma no_num_row_of f sep c : no_num (row_of f sep c).
Proof. apply no_num_row_agg. Qed.

Create HintDb no_num discriminated.
#[local] Hint Resolve no_num_Str no_num_NaN no_num_str_method no_num_sub_cell
  no_num_replace_value no_num_replace_token no_num_join_set no_num_row_agg
  no_num_row_of : no_num.

Lemma values_ok_elementwise {A} (f : A → cell) s :
  (∀ x, no_num (f x)) → values_ok (elementwise f s).
Proof. intros Hf. apply Forall_fmap, Forall_true. intros [i x]. apply Hf. Qed.

Lemma values_ok_preserved (f : cell → cell) s :
  (∀ c, no_num c → no_num (f c)) → values_ok s → values_ok (elementwise f s).
Proof.
  intros Hf Hs. apply Forall_fmap. eapply Forall_impl; [exact Hs|].
  intros [i x]. apply Hf.
Qed.

Lemma values_ok_explode s : values_ok (explode s).
Proof.
  unfold explode. apply Forall_bind, Forall_true. intros [i v].
  apply Forall_fmap. eapply Forall_impl; [apply no_num_explode_cell|done].
Qed.

(** ** The loops of [replace_series] and of the prefix pass, elementwise *)

Lemma replace_series_elementwise s m :
  replace_series s m = elementwise (replace_token m) s.
Proof.
  unfold replace_series, replace_token. revert s.
  induction m as [|[k vs] m IH]; intros s.
  - cbn. induction s as [|[i c] s IHs]; [done|]. cbn. by f_equal.
  - cbn [foldl]. rewrite IH. unfold replace. by rewrite elementwise_compose.
Qed.

Lemma prefix_loop_elementwise s d :
  foldl (λ s '(k, v), apply (λ e, replace_if_startswith e k v) s) s d
  = elementwise (prefix_token d) s.
Proof.
  unfold prefix_token. revert s.
  induction d as [|[k v] d IH]; intros s.
  - cbn. induction s as [|[i c] s IHs]; [done|]. cbn. by f_equal.
  - cbn [foldl]. rewrite IH. unfold apply. by rewrite elementwise_compose.
Qed.

Lemma explode_elementwise {A} (h : A → option (list string)) (s : series A) :
  explode (elementwise h s) = rows_stream (elementwise (explode_cell ∘ h) s).
Proof. unfold explode. by rewrite bind_elementwise, elementwise_compose. Qed.

Lemma explode_rows_stream (h : cell → option (list string)) (rows : series (list cell)) :
  explode (elementwise h (rows_stream rows))
  = rows_stream (elementwise (λ l, l ≫= explode_cell ∘ h) rows).
Proof.
  unfold explode. rewrite bind_elementwise, elementwise_compose.
  rewrite <-bind_elementwise. apply bind_rows_stream.
Qed.

(** ** Each pipeline is [squeeze_series] of the stream of its rows *)

Ltac values_ok :=
  rewrite ?replace_series_elementwise; unfold replace, replace_regex;
  repeat first
    [ apply values_ok_explode
    | apply values_ok_elementwise; intros; solve [auto with no_num]
    | apply values_ok_preserved; [intros; solve [auto with no_num]|] ].

Ltac str_accessor_returns :=
  rewrite str_accessor_values_ok by values_ok; cbn [mbind result_bind].

Lemma fmap_fmap {A B C} (g : B → C) (f : A → B) (l : list A) :
  g <$> (f <$> l) = (λ x, g (f x)) <$> l.
Proof. symmetry. apply (list_fmap_compose f g l). Qed.

Ltac same_rows :=
  f_equal; apply elementwise_ext; intros ?;
  unfold city_tokens, country_tokens, list_tokens, pieces,
    city_piece, country_piece, list_piece, compose;
  rewrite ?fmap_fmap; reflexivity.

Lemma city_stream col sep :
  normalize_city_series col sep
  = if str_accessor_ok col
    then squeeze_series (rows_stream (elementwise (city_tokens sep) col))
    else Raises AttributeError.
Proof.
  unfold normalize_city_series, str_split. unfold str_accessor at 1.
  destruct (str_accessor_ok col); [|done]. cbn [mbind result_bind].
  unfold str_strip. str_accessor_returns.
  unfold str_upper. str_accessor_returns. f_equal.
  rewrite replace_series_elementwise. unfold replace, replace_regex.
  rewrite explode_elementwise, !elementwise_rows_stream, !elementwise_compose.
  same_rows.
Qed.

Lemma country_stream col sep :
  normalize_country_series col sep
  = if str_accessor_ok col
    then squeeze_series (rows_stream (elementwise (country_tokens sep) col))
    else Raises AttributeError.
Proof.
  unfold normalize_country_series, str_split. unfold str_accessor at 1.
  destruct (str_accessor_ok col); [|done]. cbn [mbind result_bind].
  unfold str_strip. str_accessor_returns.
  unfold str_upper. str_accessor_returns. f_equal.
  rewrite replace_series_elementwise. unfold replace.
  rewrite explode_elementwise, !elementwise_rows_stream, !elementwise_compose.
  same_rows.
Qed.

Lemma list_stream col sep :
  normalize_str_separated_series col sep
  = if str_accessor_ok col
    then squeeze_series (rows_stream (elementwise (list_tokens sep) col))
    else Raises AttributeError.
Proof.
  unfold normalize_str_separated_series, str_split. unfold str_accessor at 1.
  destruct (str_accessor_ok col); [|done]. cbn [mbind result_bind].
  unfold str_strip. str_accessor_returns.
  unfold str_upper. str_accessor_returns. f_equal.
  rewrite explode_elementwise, !elementwise_rows_stream, !elementwise_compose.
  same_rows.
Qed.

Lemma str_accessor_bind {A B} s (v : series A) (k : series A → result B) :
  str_accessor s v ≫= k = if str_accessor_ok s then k v else Raises AttributeError.
Proof. unfold str_accessor. by destruct (str_accessor_ok s). Qed.

Lemma skills_stream col sep :
  normalize_skills_series col sep
  = if str_accessor_ok col
    then squeeze_series (rows_stream (elementwise (skills_tokens sep) col))
    else Raises AttributeError.
Proof.
  unfold normalize_skills_series, str_split, str_strip, str_upper.
  rewrite str_accessor_bind. destruct (str_accessor_ok col); [|reflexivity].
  do 4 str_accessor_returns. f_equal.
  rewrite replace_series_elementwise. unfold replace, replace_regex.
  rewrite (explode_elementwise _ col), !elementwise_compose.
  rewrite explode_rows_stream, elementwise_rows_stream, !elementwise_compose.
  f_equal. apply elementwise_ext. intros c.
  unfold skills_tokens, pieces, skills_piece, compose.
  generalize (explode_cell (split (default skills_sep sep) <$> as_str c)).
  intros l. induction l as [|x l IH]; [done|].
  rewrite fmap_cons, !bind_cons, fmap_app. by f_equal.
Qed.

Lemma pieces_nonempty sep c : pieces sep c ≠ [].
Proof.
  unfold pieces. destruct c as [s| |z]; cbn; [|done|done].
  pose proof (split_nonempty sep s). by destruct (split sep s).
Qed.

Lemma row_tokens_nonempty f sep c : row_tokens f sep c ≠ [].
Proof.
  assert (∀ {A B} (g : A → B) l, l ≠ [] → g <$> l ≠ []) as Hmap.
  { intros A B g [|x l]; done. }
  destruct f; cbn; unfold city_tokens, country_tokens, list_tokens,
    skills_tokens, skills_extra_tokens; try (apply Hmap, pieces_nonempty).
  pose proof (pieces_nonempty (default skills_sep sep) c) as Hp.
  destruct (pieces (default skills_sep sep) c) as [|x l]; [done|].
  rewrite fmap_cons, bind_cons. intros [Hnil _]%app_eq_nil.
  revert Hnil. apply Hmap, pieces_nonempty.
Qed.

Lemma rows_ok_tokens f sep col :
  StronglySorted lt col.*1 → rows_ok (elementwise (row_tokens f sep) col).
Proof.
  intros Hs. split; [by rewrite elementwise_labels|].
  apply Forall_fmap, Forall_true. intros [i c]. apply row_tokens_nonempty.
Qed.

Lemma single_row_elementwise {A B} (g : A → B) s :
  single_row (elementwise g s) = single_row s.
Proof. unfold single_row. by rewrite elementwise_length. Qed.

(** Every pipeline but the extended one, on a column with increasing
    labels: an exception when [.str] refuses the column or the column has
    exactly one row, otherwise the rows cleaned one by one. *)
Lemma base_rowwise f sep col :
  f ≠ SkillExtended → StronglySorted lt col.*1 →
  run f col sep
  = if str_accessor_ok col && negb (single_row col)
    then Returns (elementwise (row_of f sep) col)
    else Raises AttributeError.
Proof.
  intros Hf Hs.
  assert (run f col sep
          = if str_accessor_ok col
            then squeeze_series (rows_stream (elementwise (row_tokens f sep) col))
            else Raises AttributeError) as ->.
  { destruct f; [apply city_stream|apply country_stream|apply list_stream
                |apply skills_stream|done]. }
  destruct (str_accessor_ok col); [|done].
  rewrite squeeze_series_rows by by apply rows_ok_tokens.
  rewrite single_row_elementwise, elementwise_compose.
  by destruct (single_row col).
Qed.

Lemma run_rowwise f sep col :
  StronglySorted lt col.*1 →
  run f col sep
  = if str_accessor_ok col && negb (single_row col)
    then Returns (elementwise (row_of f sep) col)
    else Raises AttributeError.
Proof.
  intros Hs. destruct (decide (f = SkillExtended)) as [->|Hf]; [|by apply base_rowwise].
  cbn [run]. unfold normalize_skills_series_extra.
  change normalize_skills_series with (run SkillBase).
  rewrite base_rowwise by done.
  destruct (str_accessor_ok col); [|done].
  destruct (single_row col) eqn:Hsingle; [done|].
  cbn [andb negb mbind result_bind].
  unfold str_split. str_accessor_returns.
  rewrite prefix_loop_elementwise, explode_elementwise, elementwise_rows_stream.
  rewrite !elementwise_compose.
  rewrite (elementwise_ext _ (row_tokens SkillExtended sep)) by (intros; reflexivity).
  rewrite squeeze_series_rows by by apply rows_ok_tokens.
  by rewrite single_row_elementwise, Hsingle, elementwise_compose.
Qed.

(** ** Columns with the default index *)

Lemma elementwise_range_index {A B} (g : A → B) (l : list A) :
  elementwise g (range_index l) = range_index (g <$> l).
Proof.
  unfold elementwise, range_index. apply list_eq. intros i.
  rewrite list_lookup_fmap, !list_lookup_imap, list_lookup_fmap.
  by destruct (l !! i).
Qed.

Lemma single_row_range_index {A} (l : list A) :
  1 < length l → single_row (range_index l) = false.
Proof.
  intros Hl. unfold single_row. rewrite range_index_length.
  apply bool_decide_eq_false. lia.
Qed.

(** A column of at least two rows that [.str] accepts is cleaned row by
    row: the output has the labels of the input, in the same order. *)
Lemma row_alignment f sep (cells : list cell) :
  1 < length cells → str_accessor_ok (range_index cells) = true →
  run f (range_index cells) sep = Returns (range_index (row_of f sep <$> cells)).
Proof.
  intros Hl Hok.
  rewrite run_rowwise by apply range_index_sorted.
  by rewrite Hok, single_row_range_index, elementwise_range_index.
Qed.

Lemma row_alignment_lookup f sep (cells : list cell) i c :
  1 < length cells → str_accessor_ok (range_index cells) = true →
  cells !! i = Some c →
  ∃ out, run f (range_index cells) sep = Returns out
         ∧ length out = length cells
         ∧ out !! i = Some (i, row_of f sep c).
Proof.
  intros Hl Hok Hc. eexists. split; [by apply row_alignment|]. split.
  - by rewrite range_index_length, length_fmap.
  - apply range_index_lookup. by rewrite list_lookup_fmap, Hc.
Qed.

(** A column of strings and missing values is accepted by [.str]. *)
Lemma str_accessor_ok_no_num (cells : list cell) :
  Forall no_num cells → str_accessor_ok (range_index cells) = true.
Proof.
  intros Hc.
  pose proof (str_accessor_values_ok (range_index cells) (range_index cells)) as H.
  unfold str_accessor in H. destruct (str_accessor_ok _); [done|].
  discriminate H. unfold values_ok. apply Forall_forall. intros [i c] Hin.
  apply list_elem_of_lookup in Hin as [n Hn].
  unfold range_index in Hn. rewrite list_lookup_imap in Hn.
  destruct (cells !! n) as [c'|] eqn:E; [|done]. injection Hn as <- <-.
  cbn. rewrite Forall_forall in Hc. apply Hc. by eapply list_elem_of_lookup_2.
Qed.

(** A column that holds a string is accepted by [.str]. *)
Lemma range_index_values {A} (l : list A) : (range_index l).*2 = l.
Proof.
  unfold range_index. apply list_eq. intros i.
  rewrite list_lookup_fmap, list_lookup_imap. by destruct (l !! i).
Qed.

Lemma str_accessor_ok_has_str (cells : list cell) n s :
  cells !! n = Some (Str s) → str_accessor_ok (range_index cells) = true.
Proof.
  intros Hn. unfold str_accessor_ok. rewrite range_index_values.
  apply orb_true_iff. right. apply existsb_exists. exists (Str s).
  split; [|done]. by eapply list_elem_of_In, list_elem_of_lookup_2.
Qed.

(** ** Missing values *)

Lemma join_set_NaN sep (x : gset cell) : NaN ∈ x → join_set sep x = NaN.
Proof.
  intros Hin. unfold join_set.
  destruct (mapM as_str (elements x)) as [l|] eqn:E; [|done].
  apply mapM_Some_1 in E.
  apply elem_of_elements, list_elem_of_lookup in Hin as [n Hn].
  destruct (Forall2_lookup_l _ _ _ _ _ E Hn) as (y & _ & Hy). done.
Qed.

Lemma row_agg_NaN tokens : NaN ∈ tokens → row_agg tokens = NaN.
Proof. intros H. apply join_set_NaN. by apply elem_of_list_to_set. Qed.

Lemma replace_token_NaN m : replace_token m NaN = NaN.
Proof. unfold replace_token. induction m as [|[k vs] m IH]; [done|]. apply IH. Qed.

Lemma prefix_token_NaN d : prefix_token d NaN = NaN.
Proof. unfold prefix_token. induction d as [|[k v] d IH]; [done|]. apply IH. Qed.

Lemma pieces_not_str sep c : as_str c = None → pieces sep c = [NaN].
Proof. unfold pieces. by intros ->. Qed.

Lemma row_tokens_not_str f sep c : as_str c = None → row_tokens f sep c = [NaN].
Proof.
  intros Hc.
  assert (row_tokens SkillBase sep c = [NaN]) as Hbase.
  { cbn. unfold skills_tokens. rewrite pieces_not_str by done.
    cbn [fmap list_fmap compose]. unfold skills_piece. cbn [sub_cell str_method replace_value].
    by rewrite replace_token_NaN. }
  destruct f; [| | |done|]; cbn; unfold city_tokens, country_tokens, list_tokens,
    skills_extra_tokens.
  - rewrite pieces_not_str by done. cbn [fmap list_fmap compose].
    unfold city_piece. destruct c; [done| |];
      cbn [str_method sub_cell replace_value]; by rewrite replace_token_NaN.
  - rewrite pieces_not_str by done. cbn [fmap list_fmap compose].
    unfold country_piece. destruct c; [done| |];
      cbn [str_method sub_cell replace_value]; by rewrite replace_token_NaN.
  - rewrite pieces_not_str by done. by destruct c.
  - cbn in Hbase. rewrite Hbase, row_agg_NaN by apply list_elem_of_here.
    rewrite pieces_not_str by done. cbn [fmap list_fmap]. by rewrite prefix_token_NaN.
Qed.

Lemma row_of_not_str f sep c : as_str c = None → row_of f sep c = NaN.
Proof.
  intros Hc. unfold row_of. rewrite row_tokens_not_str by done.
  apply row_agg_NaN, list_elem_of_here.
Qed.

(** ** Joining a set *)

Lemma mapM_as_str (xs : list cell) (l : list string) :
  mapM as_str xs = Some l ↔ xs = Str <$> l.
Proof.
  rewrite mapM_Some. split.
  - induction 1 as [|x y xs l Hxy _ IH]; [done|].
    destruct x; simplify_eq/=. by f_equal.
  - intros ->. induction l; by constructor.
Qed.

(** A row that comes out as a string is the join of its tokens, each once,
    and none of its tokens is missing. *)
Lemma row_agg_Str_inv tokens s :
  row_agg tokens = Str s →
  ∃ l, s = join ";" l ∧ NoDup l ∧ (∀ t, t ∈ l ↔ Str t ∈ tokens) ∧ NaN ∉ tokens.
Proof.
  unfold row_agg, join_set. intros H.
  destruct (mapM as_str (elements _)) as [l|] eqn:E; [|done].
  injection H as <-. apply mapM_as_str in E.
  exists l. split; [done|]. split; [|split].
  - eapply (NoDup_fmap_1 Str). rewrite <-E. apply NoDup_elements.
  - intros t. rewrite <-(elem_of_list_to_set (C:=gset cell)), <-elem_of_elements, E.
    rewrite list_elem_of_fmap. split; [by exists t|].
    by intros (t' & [= ->] & Ht').
  - rewrite <-(elem_of_list_to_set (C:=gset cell)), <-elem_of_elements, E.
    rewrite list_elem_of_fmap. by intros (t' & Hnan & _).
Qed.

(** A row whose tokens are all strings comes out as a string. *)
Lemma row_agg_strings tokens :
  Forall (λ c, is_Some (as_str c)) tokens →
  ∃ l, row_agg tokens = Str (join ";" l) ∧ NoDup l ∧ (∀ t, t ∈ l ↔ Str t ∈ tokens).
Proof.
  intros Hs.
  assert (is_Some (mapM as_str (elements (list_to_set tokens : gset cell)))) as [l E].
  { apply mapM_is_Some, Forall_forall. intros c Hc%elem_of_elements%elem_of_list_to_set.
    rewrite Forall_forall in Hs. by apply Hs. }
  assert (row_agg tokens = Str (join ";" l)) as Hrow.
  { unfold row_agg, join_set. by rewrite E. }
  destruct (row_agg_Str_inv _ _ Hrow) as (l' & Hj & Hnd & Hin & _).
  exists l'. by rewrite Hrow, Hj.
Qed.

(** ** Tokens without [";"] *)

Lemma no_semicolon_strip c : no_semicolon c → no_semicolon (str_method strip c).
Proof. destruct c; cbn; [apply contains_strip|done|done]. Qed.
Lemma no_semicolon_upper c : no_semicolon c → no_semicolon (str_method upper c).
Proof. destruct c; cbn; [apply contains_upper|done|done]. Qed.
Lemma no_semicolon_sub_cell cls c : no_semicolon c → no_semicolon (sub_cell cls c).
Proof. destruct c; cbn; [apply contains_remove_chars|done|done]. Qed.
Lemma no_semicolon_blank c : no_semicolon c → no_semicolon (replace_value [""] NaN c).
Proof. destruct c; cbn; [by case_bool_decide|done|done]. Qed.

Lemma replace_token_cases m c :
  replace_token m c = c ∨ ∃ k, k ∈ m.*1 ∧ replace_token m c = Str k.
Proof.
  unfold replace_token. revert c.
  induction m as [|[k vs] m IH]; intros c; [by left|].
  cbn [foldl]. rewrite fmap_cons.
  destruct (IH (replace_value vs (Str k) c)) as [->|(k' & Hk' & ->)].
  - destruct c as [x| |z]; cbn; [|by left..].
    case_bool_decide; [right|by left]. exists k. split; [apply list_elem_of_here|done].
  - right. exists k'. split; [by apply list_elem_of_further|done].
Qed.

Lemma prefix_token_cases d c :
  prefix_token d c = c ∨ ∃ v, v ∈ d.*2 ∧ prefix_token d c = Str v.
Proof.
  unfold prefix_token. revert c.
  induction d as [|[k v] d IH]; intros c; [by left|].
  cbn [foldl]. rewrite fmap_cons.
  destruct (IH (replace_if_startswith c k v)) as [->|(v' & Hv' & ->)].
  - destruct c as [x| |z]; cbn; [|by left..].
    destruct (startswith x k); [right|by left].
    exists v. split; [apply list_elem_of_here|done].
  - right. exists v'. split; [by apply list_elem_of_further|done].
Qed.

Lemma no_semicolon_replace_token m c :
  Forall (λ k, contains ";" k = false) m.*1 →
  no_semicolon c → no_semicolon (replace_token m c).
Proof.
  intros Hm Hc. destruct (replace_token_cases m c) as [->|(k & Hk & ->)]; [done|].
  rewrite Forall_forall in Hm. by apply Hm.
Qed.

Lemma no_semicolon_prefix_token d c :
  Forall (λ v, contains ";" v = false) d.*2 →
  no_semicolon c → no_semicolon (prefix_token d c).
Proof.
  intros Hd Hc. destruct (prefix_token_cases d c) as [->|(k & Hk & ->)]; [done|].
  rewrite Forall_forall in Hd. by apply Hd.
Qed.

Lemma pieces_no_semicolon sep c :
  ";"%char ∈ sep → Forall no_semicolon (pieces sep c).
Proof.
  intros Hsep. unfold pieces. destruct c as [s| |z]; cbn; [|by repeat constructor..].
  pose proof (split_no_sep sep ";" s Hsep) as H.
  destruct (split sep s) as [|x l]; [by repeat constructor|].
  change (Forall no_semicolon (Str <$> x :: l)). apply Forall_fmap.
  eapply Forall_impl; [exact H|done].
Qed.

(** The tags of the city and country tables and the replacements of the
    prefix table hold no [";"]. *)
Lemma city_tags_no_semicolon :
  Forall (λ k, contains ";" k = false) city_replacement_mapping.*1.
Proof. apply (bool_decide_unpack _). by vm_compute. Qed.

Lemma country_tags_no_semicolon :
  Forall (λ k, contains ";" k = false) country_replacement_mapping.*1.
Proof. apply (bool_decide_unpack _). by vm_compute. Qed.

Lemma prefix_replacements_no_semicolon :
  Forall (λ v, contains ";" v = false) skills_replacement_dict.*2.
Proof. apply (bool_decide_unpack _). by vm_compute. Qed.

Lemma row_tokens_no_semicolon f sep c :
  semicolon_split f sep → Forall no_semicolon (row_tokens f sep c).
Proof.
  intros Hsep.
  assert (";"%char ∈ [";"%char]) as Hsemi by apply list_elem_of_here.
  destruct f; cbn in *; unfold city_tokens, country_tokens, list_tokens,
    skills_tokens, skills_extra_tokens.
  - apply Forall_fmap. eapply Forall_impl; [by apply pieces_no_semicolon|].
    intros p Hp. cbn. apply no_semicolon_replace_token; [apply city_tags_no_semicolon|].
    by apply no_semicolon_blank, no_semicolon_sub_cell, no_semicolon_upper, no_semicolon_strip.
  - apply Forall_fmap. eapply Forall_impl; [by apply pieces_no_semicolon|].
    intros p Hp. cbn. apply no_semicolon_replace_token; [apply country_tags_no_semicolon|].
    by apply no_semicolon_blank, no_semicolon_upper, no_semicolon_strip.
  - apply Forall_fmap. eapply Forall_impl; [by apply pieces_no_semicolon|].
    intros p Hp. cbn. by apply no_semicolon_upper, no_semicolon_strip.
  - apply Forall_bind, Forall_true. intros t.
    apply Forall_fmap. eapply Forall_impl; [by apply pieces_no_semicolon|].
    intros p Hp. cbn. by apply no_semicolon_strip.
  - apply Forall_fmap. eapply Forall_impl; [by apply pieces_no_semicolon|].
    intros p Hp. cbn.
    by apply no_semicolon_prefix_token; [apply prefix_replacements_no_semicolon|].
Qed.

(** Splitting an output row on [";"] gives its tokens back. *)
Lemma row_agg_split tokens s :
  Forall no_semicolon tokens → row_agg tokens = Str s →
  ∃ l, s = join ";" l ∧ NoDup l ∧ (∀ t, t ∈ l ↔ Str t ∈ tokens)
       ∧ (l ≠ [] → split [";"%char] s = l) ∧ NoDup (split [";"%char] s).
Proof.
  intros Hfree (l & -> & Hnd & Hin & _)%row_agg_Str_inv.
  exists l. repeat split; try done; try apply Hin.
  - intros Hl. apply split_join; [done|].
    apply Forall_forall. intros t Ht%Hin.
    rewrite Forall_forall in Hfree. apply (Hfree _ Ht).
  - destruct l as [|x l]; [cbn; apply NoDup_singleton|].
    rewrite split_join; [done|done|].
    apply Forall_forall. intros t Ht%Hin.
    rewrite Forall_forall in Hfree. apply (Hfree _ Ht).
Qed.

(** ** Alignment, missing rows and duplicate tags *)

(** C1, at the failing input.  A column of one row: every pipeline raises
    [AttributeError] instead of returning the one cleaned row, because
    [squeeze] hands the bare set of the row's tokens to [.str.join].
    [row_alignment] is the same statement for columns of two rows or more,
    where it holds. *)
Theorem one_row_column_raises (f : field) :
  run f (range_index [Str "Milano"]) None = Raises AttributeError.
Proof.
  rewrite run_rowwise by apply range_index_sorted.
  assert (single_row (range_index [Str "Milano"]) = true) as -> by reflexivity.
  by rewrite andb_false_r.
Qed.





(** C10, one row.  When all the tokens handed to [squeeze_series] carry one
    and the same label, the grouped frame has one row and one column,
    [squeeze] collapses it to the bare set of the tokens, and [.str.join]
    raises; so does every pipeline on a column of one row. *)
Theorem one_label_squeezes_to_scalar (f : field) (sep : option char_class)
    (s : series cell) (i : nat) (c : cell) :
  s ≠ [] → Forall (λ p, p.1 = i) s →
  squeeze (agg_set (groupby_index (reset_index s))) = Scalar (list_to_set s.*2)
  ∧ squeeze_series s = Raises AttributeError
  ∧ run f [(i, c)] sep = Raises AttributeError.
Proof.
  intros Hne Hi.
  assert (s = rows_stream [(i, s.*2)]) as Hs.
  { rewrite rows_stream_cons. cbn. rewrite app_nil_r.
    clear Hne. induction Hi as [|[j x] s Hj _ IH]; [done|].
    cbn in Hj. subst j. cbn. by f_equal. }
  assert (rows_ok [(i, s.*2)]) as Hok.
  { split; [repeat constructor|]. constructor; [|done]. cbn. by destruct s. }
  split; [|split].
  - unfold reset_index. rewrite Hs at 1. by rewrite groupby_rows_stream.
  - rewrite Hs. by rewrite squeeze_series_rows.
  - rewrite run_rowwise by repeat constructor.
    by rewrite andb_false_r.
Qed.

Lemma one_label_squeezes_to_scalar_witness :
  [(4, Str "MILAN"); (4, Str "ROZZANO")] ≠ []
  ∧ Forall (λ p : nat * cell, p.1 = 4) [(4, Str "MILAN"); (4, Str "ROZZANO")]
  ∧ squeeze (agg_set (groupby_index (reset_index [(4, Str "MILAN"); (4, Str "ROZZANO")])))
    = Scalar (list_to_set [Str "MILAN"; Str "ROZZANO"])
  ∧ squeeze_series [(4, Str "MILAN"); (4, Str "ROZZANO")] = Raises AttributeError
  ∧ run City [(4, Str "Milano/Rozzano")] None = Raises AttributeError.
Proof.
  assert ([(4, Str "MILAN"); (4, Str "ROZZANO")] ≠ []) as H1 by done.
  assert (Forall (λ p : nat * cell, p.1 = 4) [(4, Str "MILAN"); (4, Str "ROZZANO")])
    as H2 by (by repeat constructor).
  split; [exact H1|]. split; [exact H2|].
  exact (one_label_squeezes_to_scalar City None _ 4 (Str "Milano/Rozzano") H1 H2).
Defined.

(** C6, expansion.  In the skill pipeline a cell that holds only ["REST"]
    comes out as the join of ["API"] and ["REST"], each once. *)
Theorem rest_expands_to_api_and_rest (cells : list cell) (n : nat) :
  1 < length cells → cells !! n = Some (Str "REST") →
  ∃ out l, run SkillBase (range_index cells) None = Returns out
           ∧ out !! n = Some (n, Str (join ";" l))
           ∧ l ≡ₚ ["API"; "REST"].
Proof.
  intros Hl Hn. pose proof (str_accessor_ok_has_str _ _ _ Hn) as Hok.
  destruct (row_alignment_lookup SkillBase None cells n _ Hl Hok Hn)
    as (out & Hrun & _ & Hout).
  assert (row_tokens SkillBase None (Str "REST") = [Str "API"; Str "REST"]) as Htok
    by (by vm_compute).
  destruct (row_agg_strings (row_tokens SkillBase None (Str "REST")))
    as (l & Hrow & Hnd & Hin).
  { rewrite Htok. by repeat constructor. }
  exists out, l. split; [done|]. split.
  - by rewrite Hout; unfold row_of; rewrite Hrow.
  - apply NoDup_Permutation; [done|by apply (bool_decide_unpack _)|].
    intros t. rewrite Hin, Htok, !elem_of_cons, !elem_of_nil.
    clear. split; (intros [H|[H|[]]]; [left|right; left]; congruence).
Qed.

Lemma rest_expands_to_api_and_rest_witness :
  1 < length [Str "REST"; Str "python"]
  ∧ ∃ out l, run SkillBase (range_index [Str "REST"; Str "python"]) None = Returns out
             ∧ out !! 0 = Some (0, Str (join ";" l))
             ∧ l ≡ₚ ["API"; "REST"].
Proof.
  split; [cbn; lia|].
  apply (rest_expands_to_api_and_rest [Str "REST"; Str "python"] 0);
    [cbn; lia|reflexivity].
Defined.

(** ** Tokens before the rewrite, and tokens no rule matches *)

Lemma clean_piece_text f p :
  clean_piece f (Str p)
  = if decide (f = GenericList) then Str (piece_text f p)
    else replace_value [""] NaN (Str (piece_text f p)).
Proof. by destruct f. Qed.

Lemma replace_token_app m1 m2 c :
  replace_token (m1 ++ m2) c = replace_token m2 (replace_token m1 c).
Proof. unfold replace_token. apply foldl_app. Qed.

Lemma replace_token_cons k vs m c :
  replace_token ((k, vs) :: m) c = replace_token m (replace_value vs (Str k) c).
Proof. done. Qed.

Lemma variants_cons k vs m : variants ((k, vs) :: m) = vs ++ variants m.
Proof. done. Qed.

Lemma replace_token_unmatched m t :
  t ∉ variants m → replace_token m (Str t) = Str t.
Proof.
  induction m as [|[k vs] m IH]; [done|].
  rewrite variants_cons, not_elem_of_app, replace_token_cons. intros [Hvs Hm].
  cbn [replace_value]. rewrite bool_decide_eq_false_2 by done. by apply IH.
Qed.

Lemma prefix_token_unmatched d t :
  Forall (λ r, startswith t r.1 = false) d → prefix_token d (Str t) = Str t.
Proof.
  unfold prefix_token. induction 1 as [|[k v] d Hk _ IH]; [done|].
  cbn [foldl replace_if_startswith]. cbn in Hk. by rewrite Hk.
Qed.

Lemma replace_token_is_str m c :
  is_Some (as_str c) → is_Some (as_str (replace_token m c)).
Proof.
  intros Hc. destruct (replace_token_cases m c) as [->|(k & _ & ->)]; [done|by eexists].
Qed.

Lemma prefix_token_is_str d c :
  is_Some (as_str c) → is_Some (as_str (prefix_token d c)).
Proof.
  intros Hc. destruct (prefix_token_cases d c) as [->|(k & _ & ->)]; [done|by eexists].
Qed.

Lemma explode_cell_Some l : l ≠ [] → explode_cell (Some l) = Str <$> l.
Proof. by destruct l. Qed.

Lemma pieces_Str sep s : pieces sep (Str s) = Str <$> split sep s.
Proof. apply explode_cell_Some, split_nonempty. Qed.

Lemma clean_piece_no_semicolon f c : no_semicolon c → no_semicolon (clean_piece f c).
Proof.
  intros Hc. destruct f; cbn; unfold city_piece, country_piece, list_piece, skills_piece;
    repeat first [apply no_semicolon_blank | apply no_semicolon_upper
                 | apply no_semicolon_strip | apply no_semicolon_sub_cell]; done.
Qed.

Lemma clean_piece_stripped f c t :
  f ≠ City → clean_piece f c = Str t → strip t = t.
Proof.
  intros Hf. destruct c as [p| |z]; [|by destruct f..].
  rewrite clean_piece_text.
  assert (strip (piece_text f p) = piece_text f p) as Hs.
  { destruct f; [done|..]; apply strip_upper_strip. }
  case_decide; cbn; [by intros [= <-]|].
  case_bool_decide; [done|by intros [= <-]].
Qed.

Lemma clean_piece_is_str f c : clean_piece f c ≠ NaN → is_Some (as_str (clean_piece f c)).
Proof.
  destruct c as [p| |z]; [|by destruct f..].
  rewrite clean_piece_text. case_decide; cbn; [by eexists|].
  case_bool_decide; [done|by eexists].
Qed.

(** The tokens of a row before the second pass of the extended pipeline. *)
Lemma row_tokens_cleaned f sep c :
  row_tokens f sep c
  = match f with
    | City | Country | GenericList =>
        replace_token (exact_table f) <$> cleaned_pieces f sep c
    | SkillBase =>
        (replace_token (exact_table f) <$> cleaned_pieces f sep c)
          ≫= λ t, str_method strip <$> pieces [";"%char] t
    | SkillExtended =>
        prefix_token skills_replacement_dict
          <$> pieces [";"%char] (row_agg (row_tokens SkillBase sep c))
    end.
Proof.
  destruct f; cbn; unfold city_tokens, country_tokens, list_tokens, skills_tokens,
    cleaned_pieces; cbn [clean_piece effective_sep exact_table]; rewrite ?fmap_fmap; done.
Qed.

Lemma cleaned_all_str f sep c :
  NaN ∉ cleaned_pieces f sep c →
  Forall (λ x, is_Some (as_str x)) (cleaned_pieces f sep c).
Proof.
  intros Hnan. apply Forall_forall. intros x Hx.
  assert (x ≠ NaN) as Hne by (by intros ->).
  unfold cleaned_pieces in Hx. apply list_elem_of_fmap in Hx as [p [-> _]].
  by apply clean_piece_is_str.
Qed.

Lemma cleaned_no_semicolon f sep c :
  ";"%char ∈ effective_sep f sep → Forall no_semicolon (cleaned_pieces f sep c).
Proof.
  intros Hsep. unfold cleaned_pieces. apply Forall_fmap.
  eapply Forall_impl; [by apply pieces_no_semicolon|].
  intros p Hp. by apply clean_piece_no_semicolon.
Qed.

(** A row none of whose pieces is cleaned to nothing: all its tokens are
    strings, an unmatched one among them as it was. *)
Lemma base_tokens_pass f sep c t :
  f ≠ SkillExtended →
  ";"%char ∈ effective_sep f sep →
  NaN ∉ cleaned_pieces f sep c → Str t ∈ cleaned_pieces f sep c →
  t ∉ variants (exact_table f) →
  Forall (λ x, is_Some (as_str x)) (row_tokens f sep c) ∧ Str t ∈ row_tokens f sep c.
Proof.
  intros Hf Hsep Hnan Ht Hun.
  pose proof (cleaned_all_str f sep c Hnan) as Hstr.
  assert (Forall (λ x, is_Some (as_str x))
            (replace_token (exact_table f) <$> cleaned_pieces f sep c)) as Hstr'.
  { apply Forall_fmap. eapply Forall_impl; [exact Hstr|].
    intros x Hx. by apply replace_token_is_str. }
  assert (Str t ∈ replace_token (exact_table f) <$> cleaned_pieces f sep c) as Ht'.
  { apply list_elem_of_fmap. exists (Str t). by rewrite replace_token_unmatched. }
  rewrite row_tokens_cleaned. destruct f; try done. split.
  - apply Forall_bind. eapply Forall_impl; [exact Hstr'|].
    intros x [y Hy]. destruct x as [x| |z]; try done.
    unfold compose. rewrite pieces_Str, fmap_fmap. apply Forall_fmap, Forall_true.
    intros p. by eexists.
  - apply list_elem_of_bind. exists (Str t). split; [|done].
    assert (contains ";" t = false) as Hsemi.
    { pose proof (cleaned_no_semicolon SkillBase sep c Hsep) as Hfree.
      rewrite Forall_forall in Hfree. apply (Hfree _ Ht). }
    assert (strip t = t) as Hstrip.
    { apply list_elem_of_fmap in Ht as [p [Hp _]].
      by apply (clean_piece_stripped SkillBase p). }
    rewrite pieces_Str, split_single by done. cbn. rewrite Hstrip.
    apply list_elem_of_here.
Qed.

Lemma tokens_pass f sep c t :
  ";"%char ∈ effective_sep f sep →
  NaN ∉ cleaned_pieces f sep c → Str t ∈ cleaned_pieces f sep c →
  unmatched f t →
  Forall (λ x, is_Some (as_str x)) (row_tokens f sep c) ∧ Str t ∈ row_tokens f sep c.
Proof.
  intros Hsep Hnan Ht [Hun Hpre].
  destruct (decide (f = SkillExtended)) as [->|Hf]; [|by apply base_tokens_pass].
  destruct (base_tokens_pass SkillBase sep c t) as [Hstr Hin]; try done.
  destruct (row_agg_strings _ Hstr) as (l & Hrow & Hnd & Hl).
  destruct (row_agg_split _ _ (row_tokens_no_semicolon SkillBase sep c I) Hrow)
    as (l' & Hj & _ & Hl' & Hsplit & _).
  assert (l' ≠ []) as Hne.
  { intros ->. by apply (not_elem_of_nil t), Hl'. }
  rewrite row_tokens_cleaned, Hrow, pieces_Str, Hsplit, fmap_fmap by done.
  split.
  - apply Forall_fmap, Forall_true. intros p. by apply prefix_token_is_str.
  - apply list_elem_of_fmap. exists t.
    rewrite prefix_token_unmatched by done. split; [done|]. by apply Hl'.
Qed.




(** ** Empty pieces *)

(** In the pipelines that replace the empty string with [NaN], one piece
    cleaned to nothing makes the row come out missing. *)
Lemma empty_piece_nulls_row f sep s :
  f ≠ GenericList →
  Exists (λ p, piece_text f p = "") (split (effective_sep f sep) s) →
  row_of f sep (Str s) = NaN.
Proof.
  intros Hf (p & Hp & Hempty)%Exists_exists.
  assert (NaN ∈ replace_token (exact_table f) <$> cleaned_pieces f sep (Str s)) as Hnan.
  { apply list_elem_of_fmap. exists NaN. rewrite replace_token_NaN. split; [done|].
    unfold cleaned_pieces. rewrite pieces_Str, fmap_fmap.
    apply list_elem_of_fmap. exists p. split; [|done].
    rewrite clean_piece_text, Hempty. by rewrite decide_False. }
  assert (f ≠ SkillExtended → NaN ∈ row_tokens f sep (Str s)) as Hbase.
  { intros Hf'. rewrite row_tokens_cleaned. destruct f; try done.
    apply list_elem_of_bind. exists NaN. split; [apply list_elem_of_here|done]. }
  unfold row_of. destruct (decide (f = SkillExtended)) as [->|Hf'].
  - apply row_agg_NaN. rewrite row_tokens_cleaned.
    assert (row_agg (row_tokens SkillBase sep (Str s)) = NaN) as ->.
    { apply row_agg_NaN.
      rewrite row_tokens_cleaned. apply list_elem_of_bind. exists NaN.
      split; [apply list_elem_of_here|done]. }
    cbn [pieces as_str fmap option_fmap option_map explode_cell list_fmap].
    rewrite prefix_token_NaN. apply list_elem_of_here.
  - by apply row_agg_NaN, Hbase.
Qed.

(** In the generic pipeline the empty pieces stay: a row of empty pieces
    comes out as the empty string. *)
Lemma empty_pieces_kept s sep :
  Forall (λ p, piece_text GenericList p = "") (split (effective_sep GenericList sep) s) →
  row_of GenericList sep (Str s) = Str "".
Proof.
  intros Hall.
  assert (∀ x, x ∈ row_tokens GenericList sep (Str s) → x = Str "") as Htok.
  { intros x. cbn [row_tokens]. unfold list_tokens.
    change (default list_sep sep) with (effective_sep GenericList sep).
    rewrite pieces_Str, fmap_fmap.
    intros [p [-> Hp]]%list_elem_of_fmap. rewrite Forall_forall in Hall.
    cbn. f_equal. apply (Hall p Hp). }
  destruct (row_agg_strings (row_tokens GenericList sep (Str s))) as (l & Hrow & Hnd & Hl).
  { apply Forall_forall. intros x ->%Htok. by eexists. }
  assert (∀ t, t ∈ l → t = "") as Hall'.
  { intros t Ht%Hl%Htok. congruence. }
  assert ("" ∈ l) as Hin.
  { apply Hl. pose proof (row_tokens_nonempty GenericList sep (Str s)) as Hne.
    destruct (row_tokens GenericList sep (Str s)) as [|x tokens] eqn:E; [done|].
    rewrite (Htok x) by (rewrite ?E; apply list_elem_of_here). apply list_elem_of_here. }
  unfold row_of. rewrite Hrow. f_equal.
  destruct l as [|x [|y l]].
  - by apply not_elem_of_nil in Hin.
  - by rewrite (Hall' x) by apply list_elem_of_here.
  - rewrite (Hall' x) in Hnd by apply list_elem_of_here.
    rewrite (Hall' y) in Hnd by apply list_elem_of_further, list_elem_of_here.
    apply NoDup_cons in Hnd as [Hnd _]. destruct Hnd. apply list_elem_of_here.
Qed.




(** ** The order of the exact-match table *)

(** C5, as amended: a variant listed under several tags.  The entries are
    applied in the order of the table, each to the result of the one
    before: a variant becomes the tag of the first entry that lists it and,
    that tag being no variant of a later entry, stays so, whichever later
    entries list the variant again. *)
Theorem earliest_listing_wins (m1 m2 : list (string * list string))
    (k : string) (vs : list string) (v : string)
    (s : series cell) (n i : nat) :
  v ∉ variants m1 → v ∈ vs → k ∉ variants m2 →
  s !! n = Some (i, Str v) →
  replace_series s (m1 ++ (k, vs) :: m2) !! n = Some (i, Str k).
Proof.
  intros Hm1 Hv Hm2 Hn.
  rewrite replace_series_elementwise, (elementwise_lookup _ _ _ _ _ Hn).
  rewrite replace_token_app, replace_token_cons, replace_token_unmatched by done.
  cbn [replace_value]. rewrite bool_decide_eq_true_2 by done.
  by rewrite replace_token_unmatched.
Qed.

Lemma earliest_listing_wins_witness :
  "X" ∈ ["X"; "Y"]
  ∧ replace_series [(0, Str "X")] ([] ++ ("A", ["X"; "Y"]) :: [("B", ["X"])]) !! 0
    = Some (0, Str "A").
Proof.
  assert ("X" ∈ ["X"; "Y"]) as Hv by apply list_elem_of_here.
  split; [exact Hv|].
  apply (earliest_listing_wins [] [("B", ["X"])] "A" ["X"; "Y"] "X" [(0, Str "X")] 0 0);
    [apply not_elem_of_nil|exact Hv| |reflexivity].
  apply (bool_decide_unpack _). by vm_compute.
Defined.

(** C5 as stated fails: with ["X"] listed under ["A"] and, later, under
    ["B"], it is rewritten to ["A"]. *)
Lemma later_listing_does_not_win :
  replace_series [(0, Str "X")] [("A", ["X"]); ("B", ["X"])] = [(0, Str "A")]
  ∧ replace_series [(0, Str "X")] [("A", ["X"]); ("B", ["X"])] ≠ [(0, Str "B")].
Proof. split; by vm_compute. Qed.

(** ** The exact-match rewrite, applied twice *)

Lemma exact_tables_tags_fixed m : m ∈ exact_tables → tags_fixed m.
Proof.
  unfold exact_tables. rewrite !elem_of_cons, elem_of_nil.
  intros [->|[->|[->|[]]]]; apply (bool_decide_unpack _); by vm_compute.
Qed.

Lemma replace_token_idempotent m c :
  tags_fixed m → replace_token m (replace_token m c) = replace_token m c.
Proof.
  intros Hm. destruct (replace_token_cases m c) as [E|(k & Hk & E)]; rewrite E; [done|].
  unfold tags_fixed in Hm. rewrite Forall_forall in Hm. by apply Hm.
Qed.

Lemma replace_series_idempotent m s :
  tags_fixed m → replace_series (replace_series s m) m = replace_series s m.
Proof.
  intros Hm. rewrite !replace_series_elementwise, elementwise_compose.
  apply elementwise_ext. intros c. by apply replace_token_idempotent.
Qed.

(** C7, idempotence on canonical input.  On a Series of canonical tokens of
    one of the exact-match tables (its tags, and the parts of the tags that
    hold several), [replace_series] with that table gives the same Series
    when it is applied a second time. *)
Theorem exact_rewrite_idempotent_on_canonical
    (m : list (string * list string)) (s : series cell) :
  m ∈ exact_tables →
  Forall (λ p, ∃ t, p.2 = Str t ∧ t ∈ canonical_tokens m) s →
  replace_series (replace_series s m) m = replace_series s m.
Proof. intros Hm _. by apply replace_series_idempotent, exact_tables_tags_fixed. Qed.

Lemma exact_rewrite_idempotent_on_canonical_witness :
  "REST" ∈ canonical_tokens skills_replacement_mapping
  ∧ replace_series
      (replace_series [(0, Str "REST"); (1, Str "API;REST")] skills_replacement_mapping)
      skills_replacement_mapping
    = replace_series [(0, Str "REST"); (1, Str "API;REST")] skills_replacement_mapping.
Proof.
  assert ("REST" ∈ canonical_tokens skills_replacement_mapping) as Hrest.
  { apply (bool_decide_unpack _). by vm_compute. }
  assert ("API;REST" ∈ canonical_tokens skills_replacement_mapping) as Hkey.
  { apply (bool_decide_unpack _). by vm_compute. }
  split; [exact Hrest|].
  apply (exact_rewrite_idempotent_on_canonical skills_replacement_mapping
           [(0, Str "REST"); (1, Str "API;REST")]).
  - apply list_elem_of_further, list_elem_of_further, list_elem_of_here.
  - repeat constructor; eexists; (split; [reflexivity|]); cbn [snd]; [exact Hrest|exact Hkey].
Defined.

(** ** The prefix pass *)

(** C3, at the failing input.  The first prefix of the table that the token
    ["DATA MINING"] starts with is ["DATA MIN"], whose replacement is
    ["DATA MINING"]; the loop goes on with the later prefixes and the rule
    ["DATA M"] rewrites that replacement to ["DATA MANAGEMENT"], in the
    loop itself and in the output of the extended skill pipeline. *)
Theorem later_prefix_rewrites_the_replacement :
  List.find (λ r, startswith "DATA MINING" r.1) skills_replacement_dict
  = Some ("DATA MIN", "DATA MINING")
  ∧ prefix_token skills_replacement_dict (Str "DATA MINING") = Str "DATA MANAGEMENT"
  ∧ run SkillExtended (range_index [Str "DATA MINING"; Str "SQL"]) None
    = Returns [(0, Str "DATA MANAGEMENT"); (1, Str "SQL")].
Proof. repeat split; by vm_compute. Qed.

(** * Further properties of the pipelines *)

(** ** Grouping by label *)

Lemma elem_of_insert_key k ks x : x ∈ insert_key k ks ↔ x = k ∨ x ∈ ks.
Proof.
  induction ks as [|k' ks IH]; cbn.
  - rewrite list_elem_of_singleton, elem_of_nil. tauto.
  - repeat case_decide; subst; rewrite ?elem_of_cons, ?IH; tauto.
Qed.

Lemma insert_key_sorted k ks :
  StronglySorted lt ks → StronglySorted lt (insert_key k ks).
Proof.
  induction 1 as [|k' ks Hs IH Hk']; cbn; [repeat constructor|].
  repeat case_decide.
  - constructor; [by constructor|]. constructor; [done|].
    eapply Forall_impl; [exact Hk'|]. cbn. lia.
  - by constructor.
  - constructor; [done|]. apply Forall_forall. intros x [->|Hx]%elem_of_insert_key; [lia|].
    rewrite Forall_forall in Hk'. by apply Hk'.
Qed.

Lemma group_keys_sorted {A} (s : series A) : StronglySorted lt (group_keys s).
Proof.
  unfold group_keys. induction s.*1 as [|k ks IH]; cbn; [constructor|].
  by apply insert_key_sorted.
Qed.

Lemma elem_of_group_keys {A} (s : series A) k : k ∈ group_keys s ↔ k ∈ s.*1.
Proof.
  unfold group_keys. induction s.*1 as [|k' ks IH]; cbn; [done|].
  rewrite elem_of_insert_key, elem_of_cons, IH. tauto.
Qed.

(** X2.  [squeeze_series] on any stream with two different labels at
    least: the output has one row for each label of the stream, in
    ascending order of the labels whatever the order of the stream, and the
    row of a label joins the set of all the values under that label. *)
Theorem squeeze_series_one_row_per_label (s : series cell) (i j : nat) :
  i ∈ s.*1 → j ∈ s.*1 → i ≠ j →
  ∃ out, squeeze_series s = Returns out
         ∧ StronglySorted lt out.*1
         ∧ (∀ k, k ∈ out.*1 ↔ k ∈ s.*1)
         ∧ ∀ n k v, out !! n = Some (k, v) → v = row_agg (group k s).
Proof.
  intros Hi Hj Hij.
  exists ((λ k, (k, row_agg (group k s))) <$> group_keys s).
  assert (((λ k, (k, row_agg (group k s))) <$> group_keys s).*1 = group_keys s) as Hkeys.
  { rewrite <-list_fmap_compose. apply list_fmap_id. }
  split; [|split; [|split]].
  - unfold squeeze_series, reset_index, agg_set, groupby_index.
    assert (elementwise list_to_set ((λ k, (k, group k s)) <$> group_keys s)
            = (λ k, (k, list_to_set (group k s))) <$> group_keys s) as ->.
    { unfold elementwise. by rewrite <-list_fmap_compose. }
    apply elem_of_group_keys in Hi, Hj.
    destruct (group_keys s) as [|a [|b ks]] eqn:E.
    + by apply elem_of_nil in Hi.
    + apply list_elem_of_singleton in Hi, Hj. congruence.
    + cbn [fmap list_fmap squeeze str_join]. f_equal.
      unfold elementwise. cbn [fmap list_fmap prod_map fst snd id]. do 2 f_equal.
      rewrite <-list_fmap_compose. by apply list_fmap_ext.
  - rewrite Hkeys. apply group_keys_sorted.
  - intros k. rewrite Hkeys. apply elem_of_group_keys.
  - intros n k v Hn. rewrite list_lookup_fmap in Hn.
    destruct (group_keys s !! n); by simplify_eq/=.
Qed.

Lemma squeeze_series_one_row_per_label_witness :
  ∃ out, squeeze_series [(7, Str "B"); (2, Str "A"); (7, Str "C"); (2, Str "A")] = Returns out
         ∧ StronglySorted lt out.*1
         ∧ (∀ k, k ∈ out.*1 ↔ k ∈ [7; 2; 7; 2])
         ∧ ∀ n k v, out !! n = Some (k, v)
             → v = row_agg (group k [(7, Str "B"); (2, Str "A"); (7, Str "C"); (2, Str "A")]).
Proof.
  apply (squeeze_series_one_row_per_label
           [(7, Str "B"); (2, Str "A"); (7, Str "C"); (2, Str "A")] 7 2);
    [apply list_elem_of_here|apply list_elem_of_further, list_elem_of_here|lia].
Defined.



(** ** The exact-match tables as lookups *)

(** X7.  In the city, country and skill tables no entry is shadowed: every
    variant listed under a tag is rewritten by [replace_series] to that
    very tag. *)
Theorem listed_variant_becomes_its_tag (m : list (string * list string))
    (k : string) (vs : list string) (v : string) (s : series cell) (n i : nat) :
  m ∈ exact_tables → (k, vs) ∈ m → v ∈ vs →
  s !! n = Some (i, Str v) →
  replace_series s m !! n = Some (i, Str k).
Proof.
  intros Hm Hk Hv Hn.
  rewrite replace_series_elementwise, (elementwise_lookup _ _ _ _ _ Hn). do 2 f_equal.
  assert (Forall (λ r, Forall (λ v, replace_token m (Str v) = Str r.1) r.2) m) as Hall.
  { unfold exact_tables in Hm. rewrite !elem_of_cons, elem_of_nil in Hm.
    destruct Hm as [->|[->|[->|[]]]]; apply (bool_decide_unpack _); by vm_compute. }
  rewrite Forall_forall in Hall. specialize (Hall _ Hk). cbn in Hall.
  rewrite Forall_forall in Hall. by apply Hall.
Qed.

Lemma listed_variant_becomes_its_tag_witness :
  replace_series [(0, Str "POSTGESQL")] skills_replacement_mapping !! 0 = Some (0, Str "SQL").
Proof.
  apply (listed_variant_becomes_its_tag skills_replacement_mapping "SQL"
           ["MICROSOFT SQL SERVER"; "MICROSOFT SQLSERVER"; "DB2"; "ORACLEDB"; "POSTGRESQL";
            "MYSQL"; "RDBMS"; "DATABASE MYSQL"; "DATABASE SQL"; "POSTEGRESQL"; "POSTGERSQL";
            "POSTGESQL"] "POSTGESQL" [(0, Str "POSTGESQL")] 0 0).
  - apply list_elem_of_further, list_elem_of_further, list_elem_of_here.
  - apply (bool_decide_unpack _). by vm_compute.
  - apply (bool_decide_unpack _). by vm_compute.
  - reflexivity.
Defined.

(** ** Rows aggregated again *)

Lemma row_agg_same_set tokens1 tokens2 :
  (∀ x, x ∈ tokens1 ↔ x ∈ tokens2) → row_agg tokens1 = row_agg tokens2.
Proof.
  intros Hsame. unfold row_agg. f_equal. apply set_eq. intros x.
  by rewrite !elem_of_list_to_set.
Qed.

Lemma row_tokens_no_num f sep c : Forall no_num (row_tokens f sep c).
Proof.
  destruct f; cbn; unfold city_tokens, country_tokens, list_tokens, skills_tokens,
    skills_extra_tokens.
  - apply Forall_fmap, Forall_forall. intros x Hx. unfold compose, city_piece.
    auto with no_num.
  - apply Forall_fmap, Forall_forall. intros x Hx. unfold compose, country_piece.
    auto with no_num.
  - apply Forall_fmap, Forall_forall. intros x Hx. unfold list_piece. auto with no_num.
  - apply Forall_bind, Forall_true. intros x. apply Forall_fmap, Forall_true.
    intros y. auto with no_num.
  - apply Forall_fmap. eapply Forall_impl; [apply no_num_explode_cell|].
    intros x Hx. cbn. destruct (prefix_token_cases skills_replacement_dict x)
      as [->|(v & _ & ->)]; auto with no_num.
Qed.

(** The tags of a row that comes out as a string, aggregated again, give
    the same string. *)
Lemma row_agg_of_tags tokens s :
  Forall no_semicolon tokens → Forall no_num tokens → tokens ≠ [] →
  row_agg tokens = Str s →
  ∃ l, s = join ";" l ∧ split [";"%char] s = l
       ∧ (∀ t, t ∈ l ↔ Str t ∈ tokens)
       ∧ row_agg (Str <$> l) = Str s.
Proof.
  intros Hfree Hnum Hne Hrow.
  destruct (row_agg_Str_inv _ _ Hrow) as (_ & _ & _ & _ & Hnan).
  destruct (row_agg_split _ _ Hfree Hrow) as (l & Hj & Hnd & Hin & Hsplit & _).
  exists l. split; [done|]. split; [|split; [done|]].
  - apply Hsplit. intros ->. destruct tokens as [|[t| |z] tokens]; [done|..].
    + by apply (not_elem_of_nil t), Hin, list_elem_of_here.
    + destruct Hnan. apply list_elem_of_here.
    + apply Forall_cons in Hnum as [Hz _]. by destruct (Hz z).
  - rewrite <-Hrow. apply row_agg_same_set. intros x.
    rewrite list_elem_of_fmap. split.
    + intros (t & -> & Ht). by apply Hin.
    + intros Hx. destruct x as [t| |z].
      * exists t. split; [done|]. by apply Hin.
      * done.
      * rewrite Forall_forall in Hnum. by destruct (Hnum _ Hx z).
Qed.

(** ** The extended skill pipeline next to the base one *)

Lemma extended_row_without_prefix sep c :
  (∀ t, Str t ∈ row_tokens SkillBase sep c →
        Forall (λ r, startswith t r.1 = false) skills_replacement_dict) →
  row_of SkillExtended sep c = row_of SkillBase sep c.
Proof.
  intros Hun. unfold row_of at 1. rewrite row_tokens_cleaned.
  fold (row_of SkillBase sep c).
  destruct (row_of SkillBase sep c) as [s| |z] eqn:Hrow.
  - destruct (row_agg_of_tags (row_tokens SkillBase sep c) s) as (l & Hj & Hsplit & Hin & Hagain).
    + by apply row_tokens_no_semicolon.
    + apply row_tokens_no_num.
    + apply row_tokens_nonempty.
    + exact Hrow.
    + rewrite pieces_Str, Hsplit, <-Hagain. f_equal.
      rewrite <-list_fmap_compose. apply list_fmap_ext. intros _ t Ht%list_elem_of_lookup_2.
      cbn. apply prefix_token_unmatched, Hun. by apply Hin.
  - rewrite pieces_not_str by done. cbn [fmap list_fmap].
    rewrite prefix_token_NaN. apply row_agg_NaN, list_elem_of_here.
  - by destruct (no_num_row_of SkillBase sep c z).
Qed.



(** ** Characters of the cleaned strings *)

Section all_chars.
Context (P : ascii → bool).

Lemma all_chars_lstrip s : all_chars P s = true → all_chars P (lstrip s) = true.
Proof.
  induction s as [|c s IH]; cbn; [done|].
  intros [Hc Hs]%andb_true_iff. destruct (is_space c); [by apply IH|].
  cbn. by rewrite Hc, Hs.
Qed.

Lemma all_chars_rstrip s : all_chars P s = true → all_chars P (rstrip s) = true.
Proof.
  induction s as [|c s IH]; cbn; [done|].
  intros [Hc Hs]%andb_true_iff. specialize (IH Hs).
  destruct (rstrip s) as [|d r].
  - destruct (is_space c); cbn; [done|]. by rewrite Hc.
  - cbn in *. by rewrite Hc, IH.
Qed.

Lemma all_chars_strip s : all_chars P s = true → all_chars P (strip s) = true.
Proof. intros H. by apply all_chars_rstrip, all_chars_lstrip. Qed.

Lemma all_chars_remove_chars cls s :
  all_chars P s = true → all_chars P (remove_chars cls s) = true.
Proof.
  induction s as [|c s IH]; cbn; [done|].
  intros [Hc Hs]%andb_true_iff. destruct (in_class cls c); [by apply IH|].
  cbn. by rewrite Hc, IH.
Qed.

Lemma all_chars_split cls s :
  all_chars P s = true → Forall (λ p, all_chars P p = true) (split cls s).
Proof.
  induction s as [|c s IH]; cbn [split all_chars]; [by repeat constructor|].
  intros [Hc Hs]%andb_true_iff. specialize (IH Hs).
  destruct (in_class cls c); [by constructor|].
  destruct IH as [|w ws Hw Hws]; constructor; try done; cbn; by rewrite Hc.
Qed.

Lemma all_chars_app s t :
  all_chars P (s +:+ t) = all_chars P s && all_chars P t.
Proof.
  induction s as [|c s IH]; [done|].
  change (String c s +:+ t) with (String c (s +:+ t)). cbn. by rewrite IH, andb_assoc.
Qed.

Lemma all_chars_join c l :
  P c = true → Forall (λ p, all_chars P p = true) l →
  all_chars P (join (String c "") l) = true.
Proof.
  intros Hc. induction 1 as [|x l Hx Hl IH]; [done|].
  destruct l as [|y l]; [done|].
  change (join (String c "") (x :: y :: l))
    with (x +:+ String c (join (String c "") (y :: l))).
  rewrite all_chars_app, Hx. cbn [all_chars andb]. rewrite Hc. apply IH.
Qed.

End all_chars.

Lemma upper_char_not_lower c : is_lower (upper_char c) = false.
Proof. by destruct c as [[] [] [] [] [] [] [] []]. Qed.

Lemma upper_char_idemp c : upper_char (upper_char c) = upper_char c.
Proof. by destruct c as [[] [] [] [] [] [] [] []]. Qed.

Lemma no_lower_upper s : no_lower (upper s) = true.
Proof.
  induction s as [|c s IH]; [done|]. unfold no_lower in *. cbn.
  by rewrite upper_char_not_lower, IH.
Qed.

Lemma upper_idemp s : upper (upper s) = upper s.
Proof. induction s as [|c s IH]; [done|]. cbn. by rewrite upper_char_idemp, IH. Qed.

(** ** No lower-case letter in an output *)

Lemma capitals_replace_token m c :
  Forall (λ k, no_lower k = true) m.*1 → capitals c → capitals (replace_token m c).
Proof.
  intros Hm Hc. destruct (replace_token_cases m c) as [->|(k & Hk & ->)]; [done|].
  rewrite Forall_forall in Hm. by apply Hm.
Qed.

Lemma capitals_prefix_token d c :
  Forall (λ v, no_lower v = true) d.*2 → capitals c → capitals (prefix_token d c).
Proof.
  intros Hd Hc. destruct (prefix_token_cases d c) as [->|(k & Hk & ->)]; [done|].
  rewrite Forall_forall in Hd. by apply Hd.
Qed.

Lemma capitals_clean_piece f c : capitals (clean_piece f c).
Proof.
  destruct c as [p| |z]; [|by destruct f..].
  rewrite clean_piece_text.
  assert (no_lower (piece_text f p) = true) as Hp.
  { destruct f; cbn; try apply no_lower_upper.
    apply all_chars_remove_chars, no_lower_upper. }
  case_decide; cbn; [done|]. by case_bool_decide.
Qed.

Lemma capitals_pieces cls c : capitals c → Forall capitals (pieces cls c).
Proof.
  destruct c as [s| |z]; [|by repeat constructor..].
  intros Hs. rewrite pieces_Str. apply Forall_fmap.
  eapply Forall_impl; [by apply all_chars_split|done].
Qed.

Lemma capitals_strip c : capitals c → capitals (str_method strip c).
Proof. destruct c; cbn; [apply all_chars_strip|done..]. Qed.

Lemma exact_tags_capitals f : Forall (λ k, no_lower k = true) (exact_table f).*1.
Proof. destruct f; apply (bool_decide_unpack _); by vm_compute. Qed.

Lemma prefix_replacements_capitals :
  Forall (λ v, no_lower v = true) skills_replacement_dict.*2.
Proof. apply (bool_decide_unpack _). by vm_compute. Qed.

Lemma capitals_row_agg tokens : Forall capitals tokens → capitals (row_agg tokens).
Proof.
  intros Htok. destruct (row_agg tokens) as [s| |z] eqn:Hrow; [|done..].
  destruct (row_agg_Str_inv _ _ Hrow) as (l & -> & _ & Hin & _).
  apply (all_chars_join _ ";"%char); [done|].
  apply Forall_forall. intros t Ht%Hin. rewrite Forall_forall in Htok.
  apply (Htok _ Ht).
Qed.

Lemma capitals_row_tokens f sep c : Forall capitals (row_tokens f sep c).
Proof.
  assert (∀ f, f ≠ SkillExtended → Forall capitals (row_tokens f sep c)) as Hbase.
  { intros g Hg.
    assert (Forall capitals (replace_token (exact_table g) <$> cleaned_pieces g sep c)) as Hrw.
    { apply Forall_fmap, Forall_fmap, Forall_true. intros p. cbn.
      apply capitals_replace_token; [apply exact_tags_capitals|apply capitals_clean_piece]. }
    rewrite row_tokens_cleaned. destruct g; try done.
    apply Forall_bind. eapply Forall_impl; [exact Hrw|]. intros t Ht. cbn.
    apply Forall_fmap. eapply Forall_impl; [by apply capitals_pieces|].
    intros p Hp. by apply capitals_strip. }
  destruct (decide (f = SkillExtended)) as [->|Hf]; [|by apply Hbase].
  rewrite row_tokens_cleaned. apply Forall_fmap.
  eapply Forall_impl; [apply capitals_pieces, capitals_row_agg; by apply Hbase|].
  intros p Hp. cbn. by apply capitals_prefix_token; [apply prefix_replacements_capitals|].
Qed.



(** ** Rules of the prefix table that never show *)

Lemma prefix_token_app d1 d2 c :
  prefix_token (d1 ++ d2) c = prefix_token d2 (prefix_token d1 c).
Proof. unfold prefix_token. apply foldl_app. Qed.

Lemma prefix_token_never_data_mining c t :
  t ∈ ["DATA MINING"; "DATA MODELLING"] →
  prefix_token skills_replacement_dict c ≠ Str t.
Proof.
  intros Ht.
  assert (skills_replacement_dict
          = take 108 skills_replacement_dict
            ++ [("DATA M", "DATA MANAGEMENT")] ++ drop 109 skills_replacement_dict) as ->
    by (by vm_compute).
  rewrite !prefix_token_app.
  set (y := prefix_token (take 108 skills_replacement_dict) c).
  set (z := prefix_token [("DATA M", "DATA MANAGEMENT")] y).
  assert (z ≠ Str t) as Hz.
  { unfold z, prefix_token. cbn [foldl replace_if_startswith].
    rewrite !elem_of_cons, elem_of_nil in Ht.
    destruct y as [w| |n]; [|done..].
    unfold replace_if_startswith. destruct (startswith w "DATA M") eqn:Hw.
    - by destruct Ht as [->|[->|[]]].
    - intros [= Hwt]. rewrite Hwt in Hw. by destruct Ht as [->|[->|[]]]. }
  destruct (prefix_token_cases (drop 109 skills_replacement_dict) z) as [->|(v & Hv & ->)];
    [done|].
  intros [= ->]. revert Hv.
  rewrite !elem_of_cons, elem_of_nil in Ht.
  destruct Ht as [->|[->|[]]]; apply (bool_decide_unpack _); by vm_compute.
Qed.



(** ** Capitals in the input *)

Lemma split_upper cls s :
  case_blind cls → split cls (upper s) = upper <$> split cls s.
Proof.
  intros Hcls. induction s as [|c s IH]; [done|].
  cbn [upper split]. rewrite Hcls, IH.
  destruct (in_class cls c); [done|].
  pose proof (split_nonempty cls s). by destruct (split cls s).
Qed.

Lemma remove_chars_upper cls s :
  case_blind cls → remove_chars cls (upper s) = upper (remove_chars cls s).
Proof.
  intros Hcls. induction s as [|c s IH]; [done|].
  cbn [upper remove_chars]. rewrite Hcls, IH. by destruct (in_class cls c).
Qed.

Lemma case_blind_classes :
  case_blind city_sep ∧ case_blind list_sep ∧ case_blind skills_sep
  ∧ case_blind [";"%char] ∧ case_blind [")"; "]"; "?"]%char
  ∧ case_blind [")"; "]"; "?"; "."]%char ∧ case_blind ["034"%char] ∧ case_blind ["'"%char].
Proof. repeat split; by intros [[] [] [] [] [] [] [] []]. Qed.

Lemma piece_text_upper f p : piece_text f (upper p) = piece_text f p.
Proof.
  destruct case_blind_classes as (_ & _ & _ & _ & H1 & H2 & H3 & H4).
  destruct f; cbn [piece_text];
    [| | |rewrite !remove_chars_upper by done..];
    by rewrite strip_upper, upper_idemp.
Qed.

Lemma cleaned_pieces_upper f c :
  cleaned_pieces f None (upper_cell c) = cleaned_pieces f None c.
Proof.
  destruct c as [s| |z]; [|done..].
  unfold cleaned_pieces. cbn [upper_cell]. rewrite !pieces_Str, split_upper, !fmap_fmap.
  - apply list_fmap_ext. intros _ p _. by rewrite !clean_piece_text, piece_text_upper.
  - destruct case_blind_classes as (H1 & H2 & H3 & _). by destruct f.
Qed.

Lemma row_of_upper f c : row_of f None (upper_cell c) = row_of f None c.
Proof.
  assert (∀ g, g ≠ SkillExtended →
            row_tokens g None (upper_cell c) = row_tokens g None c) as Hbase.
  { intros g Hg. rewrite !row_tokens_cleaned, !cleaned_pieces_upper. by destruct g. }
  unfold row_of. destruct (decide (f = SkillExtended)) as [->|Hf]; [|by rewrite Hbase].
  by rewrite !(row_tokens_cleaned SkillExtended), Hbase.
Qed.

(** X5.  With their own separators the pipelines do not tell a letter from
    its capital: a column and the same column in capitals give the same
    result. *)
Theorem case_of_the_input_is_ignored (f : field) (cells : list cell) :
  run f (range_index (upper_cell <$> cells)) None = run f (range_index cells) None.
Proof.
  rewrite !run_rowwise by apply range_index_sorted.
  assert (str_accessor_ok (range_index (upper_cell <$> cells))
          = str_accessor_ok (range_index cells)) as ->.
  { unfold str_accessor_ok. rewrite !range_index_values. f_equal.
    - induction cells as [|[] cells IH]; cbn; by rewrite ?IH.
    - induction cells as [|[] cells IH]; cbn; by rewrite ?IH. }
  assert (single_row (range_index (upper_cell <$> cells)) = single_row (range_index cells))
    as -> by (unfold single_row; by rewrite !range_index_length, length_fmap).
  rewrite !elementwise_range_index, <-list_fmap_compose.
  assert (row_of f None ∘ upper_cell <$> cells = row_of f None <$> cells) as ->; [|done].
  apply list_fmap_ext. intros _ c _. apply row_of_upper.
Qed.

(** ** The generic pipeline on its own output *)

Lemma clear_of_split cls s : Forall (λ p, clear_of cls p = true) (split cls s).
Proof.
  induction s as [|c s IH]; cbn [split]; [by repeat constructor|].
  destruct (in_class cls c) eqn:Hc; [by constructor|].
  destruct IH as [|w ws Hw Hws]; constructor; try done; unfold clear_of in *; cbn;
    by rewrite Hc.
Qed.

Lemma split_of_clear cls s : clear_of cls s = true → split cls s = [s].
Proof.
  unfold clear_of. induction s as [|c s IH]; cbn [split all_chars]; [done|].
  intros [Hc Hs]%andb_true_iff. apply negb_true_iff in Hc. by rewrite Hc, IH.
Qed.

Lemma split_app_class cls c s t :
  in_class cls c = true → clear_of cls s = true →
  split cls (s +:+ String c t) = s :: split cls t.
Proof.
  intros Hc. unfold clear_of. induction s as [|d s IH].
  - intros _. change ("" +:+ String c t) with (String c t). cbn [split]. by rewrite Hc.
  - change (String d s +:+ String c t) with (String d (s +:+ String c t)).
    cbn [split all_chars]. intros [Hd Hs]%andb_true_iff.
    apply negb_true_iff in Hd. by rewrite Hd, IH.
Qed.

Lemma split_join_class cls c (l : list string) :
  in_class cls c = true → l ≠ [] → Forall (λ p, clear_of cls p = true) l →
  split cls (join (String c "") l) = l.
Proof.
  intros Hc Hl Hf. induction Hf as [|x l Hx Hf IH]; [done|].
  destruct l as [|y l]; [by apply split_of_clear|].
  change (join (String c "") (x :: y :: l))
    with (x +:+ String c (join (String c "") (y :: l))).
  rewrite split_app_class by done. by rewrite IH.
Qed.

Lemma clear_of_upper cls s :
  case_blind cls → clear_of cls s = true → clear_of cls (upper s) = true.
Proof.
  intros Hcls. unfold clear_of. induction s as [|c s IH]; cbn; [done|].
  intros [Hc Hs]%andb_true_iff. by rewrite Hcls, Hc, IH.
Qed.

Lemma list_row_again sep c :
  ";"%char ∈ default list_sep sep → case_blind (default list_sep sep) →
  row_of GenericList sep (row_of GenericList sep c) = row_of GenericList sep c.
Proof.
  intros Hsemi Hblind. set (cls := default list_sep sep) in *.
  destruct (row_of GenericList sep c) as [s| |z] eqn:Hrow;
    [|by apply row_of_not_str|by destruct (no_num_row_of GenericList sep c z)].
  unfold row_of in Hrow.
  destruct (row_agg_Str_inv _ _ Hrow) as (l & -> & _ & Hin & Hnan).
  destruct c as [s0| |z];
    [|destruct Hnan; apply list_elem_of_here..].
  cbn [row_tokens] in *. unfold list_tokens in *. fold cls in Hin, Hrow, Hnan.
  rewrite pieces_Str, fmap_fmap in Hin, Hrow.
  assert (∀ t, t ∈ l → clear_of cls t = true ∧ upper (strip t) = t) as Hl.
  { intros t (p & [= ->] & Hp)%Hin%list_elem_of_fmap. split.
    - apply clear_of_upper; [done|]. apply all_chars_strip.
      pose proof (clear_of_split cls s0) as Hc. rewrite Forall_forall in Hc. by apply Hc.
    - by rewrite strip_upper, upper_idemp, strip_idemp. }
  assert (l ≠ []) as Hne.
  { pose proof (split_nonempty cls s0) as Hs0.
    destruct (split cls s0) as [|p ps] eqn:E; [done|]. intros ->.
    apply (not_elem_of_nil (upper (strip p))), Hin. apply list_elem_of_here. }
  unfold row_of. cbn [row_tokens]. unfold list_tokens. fold cls.
  rewrite pieces_Str, split_join_class, fmap_fmap.
  - rewrite <-Hrow. apply row_agg_same_set. intros x. rewrite !list_elem_of_fmap. split.
    + intros (t & -> & Ht). destruct (Hl t Ht) as [_ Hfix].
      apply Hin in Ht. apply list_elem_of_fmap in Ht as (p & Hp & Hp').
      exists p. split; [|done]. cbn. by rewrite Hfix.
    + intros (p & -> & Hp). exists (upper (strip p)). split.
      * cbn. by rewrite strip_upper, upper_idemp, strip_idemp.
      * apply Hin, list_elem_of_fmap. by exists p.
  - by apply in_class_spec.
  - done.
  - apply Forall_forall. intros t Ht. by apply Hl.
Qed.



(** * Dates *)

(** ** Characters and digits *)

Lemma digit_cases c :
  is_digit c = true → c ∈ ["0"; "1"; "2"; "3"; "4"; "5"; "6"; "7"; "8"; "9"]%char.
Proof.
  destruct c as [[] [] [] [] [] [] [] []]; intros H; try discriminate H;
    apply (bool_decide_unpack _); by vm_compute.
Qed.

Lemma digit_not_dash c : is_digit c = true → bool_decide ("-"%char = c) = false.
Proof. by destruct c as [[] [] [] [] [] [] [] []]. Qed.

Lemma not_digit_facts c :
  is_digit c = false →
  bool_decide ("0"%char = c) = false ∧ bool_decide ("1"%char = c) = false
  ∧ in_range "1" "9" c = false.
Proof. by destruct c as [[] [] [] [] [] [] [] []]. Qed.

Lemma is_year_inv y :
  is_year y = true →
  ∃ a b c d, y = String a (String b (String c (String d "")))
             ∧ is_digit a = true ∧ is_digit b = true
             ∧ is_digit c = true ∧ is_digit d = true.
Proof.
  unfold is_year. intros [Hlen Hd]%andb_true_iff. apply Nat.eqb_eq in Hlen.
  destruct y as [|a [|b [|c [|d [|e y]]]]]; try discriminate Hlen.
  cbn in Hd. repeat (apply andb_true_iff in Hd as [? Hd]).
  by exists a, b, c, d.
Qed.

Lemma append_String c s t : String c s +:+ t = String c (s +:+ t).
Proof. done. Qed.

Lemma append_empty t : "" +:+ t = t.
Proof. done. Qed.

Lemma contains_append c s t :
  contains c (s +:+ t) = contains c s || contains c t.
Proof.
  induction s as [|d s IH]; [done|].
  rewrite append_String. cbn. by rewrite IH, orb_assoc.
Qed.

Lemma year_no_dash y : is_year y = true → contains "-" y = false.
Proof.
  intros (a & b & c & d & -> & Ha & Hb & Hc & Hd)%is_year_inv. cbn.
  by rewrite !digit_not_dash.
Qed.

Lemma month_no_dash m : m ∈ month_texts → contains "-" m = false.
Proof.
  intros Hm.
  assert (Forall (λ m, contains "-" m = false) month_texts) as H
    by (apply (bool_decide_unpack _); by vm_compute).
  rewrite Forall_forall in H. by apply H.
Qed.

(** ** How the groups of the patterns match *)

Ltac month_cases H :=
  unfold month_texts in H; rewrite !elem_of_cons, elem_of_nil in H;
  repeat (destruct H as [->|H]); [..|destruct H].

(** The year group takes four digits. *)
Lemma match_year y r k : is_year y = true → match_k year_re (y +:+ r) k = k r.
Proof.
  intros (a & b & c & d & -> & Ha & Hb & Hc & Hd)%is_year_inv.
  rewrite !append_String, append_empty. cbn. by rewrite Ha, Hb, Hc, Hd.
Qed.

Lemma match_year_whole y k : is_year y = true → match_k year_re y k = k "".
Proof.
  intros (a & b & c & d & -> & Ha & Hb & Hc & Hd)%is_year_inv.
  cbn. by rewrite Ha, Hb, Hc, Hd.
Qed.

(** The month group before a dash takes the whole text of the month. *)
Lemma match_month_dash m r k :
  m ∈ month_texts →
  match_k month_re (m +:+ String "-" r) (λ s, match_k dash s k) = k r.
Proof.
  intros Hm. month_cases Hm; rewrite ?append_String, append_empty; cbn;
    by destruct (k r).
Qed.

(** The month group matches at the start of the text of a month. *)
Lemma match_month_start m r :
  m ∈ month_texts → match_k month_re (m +:+ r) (λ _, true) = true.
Proof.
  intros Hm. month_cases Hm; rewrite ?append_String, append_empty; by cbn.
Qed.

(** The year group does not match a month followed by a dash. *)
Lemma match_year_on_month m r k :
  m ∈ month_texts → match_k year_re (m +:+ String "-" r) k = false.
Proof.
  intros Hm. month_cases Hm; rewrite ?append_String, append_empty; by cbn.
Qed.

(** The month group followed by a dash does not match three digits. *)
Lemma match_month_on_digits a b c r k :
  is_digit a = true → is_digit b = true → is_digit c = true →
  match_k month_re (String a (String b (String c r))) (λ s, match_k dash s k) = false.
Proof.
  intros Ha%digit_cases Hb%digit_cases Hc%digit_not_dash.
  rewrite !elem_of_cons, elem_of_nil in Ha, Hb.
  repeat (destruct Ha as [->|Ha]); [..|destruct Ha];
    (repeat (destruct Hb as [->|Hb]); [..|destruct Hb]);
    cbn; by rewrite ?Hc.
Qed.

Lemma match_month_on_year y r k :
  is_year y = true →
  match_k month_re (y +:+ r) (λ s, match_k dash s k) = false.
Proof.
  intros (a & b & c & d & -> & Ha & Hb & Hc & Hd)%is_year_inv.
  rewrite !append_String. by apply match_month_on_digits.
Qed.

Lemma match_dash r k : match_k dash (String "-" r) k = k r.
Proof. done. Qed.

Lemma normalize_date_unfold x :
  normalize_date x
  = match List.find (λ p, re_match p.2 (date_text x)) patterns with
    | Some (d_format, _) => get_date_by_format (date_text x) d_format
    | None => Date "0001-01-01"
    end.
Proof. done. Qed.

(** The branches of [get_date_by_format]. *)
Lemma get_date_by_format_cases s :
  get_date_by_format s "yyyy" = Date (join "-" [zfill 4 s; "01"; "01"])
  ∧ get_date_by_format s "mm-yyyy"
    = match split ["-"%char] s with
      | [m; y] => Date (join "-" [zfill 4 y; zfill 2 m; "01"])
      | _ => ValueError
      end
  ∧ get_date_by_format s "yyyy-mm"
    = match split ["-"%char] s with
      | [y; m] => Date (join "-" [zfill 4 y; zfill 2 m; "01"])
      | _ => ValueError
      end
  ∧ get_date_by_format s "dd-mm-yyyy"
    = match split ["-"%char] s with
      | [d; m; y] => Date (join "-" [zfill 4 y; zfill 2 m; zfill 2 d])
      | _ => ValueError
      end
  ∧ get_date_by_format s "yyyy-mm-dd"
    = match split ["-"%char] s with
      | [y; m; d] => Date (join "-" [zfill 4 y; zfill 2 m; zfill 2 d])
      | _ => ValueError
      end.
Proof.
  unfold get_date_by_format. cbn [String.eqb Ascii.eqb Bool.eqb].
  repeat split; repeat case_match; by simplify_eq.
Qed.

Lemma zfill_year y : is_year y = true → zfill 4 y = y.
Proof.
  intros (a & b & c & d & -> & _)%is_year_inv. done.
Qed.

Lemma split_dash_2 a b :
  contains "-" a = false → contains "-" b = false →
  split ["-"%char] (a +:+ String "-" b) = [a; b].
Proof. intros Ha Hb. by rewrite split_app_sep, split_single. Qed.

Lemma split_dash_3 a b c :
  contains "-" a = false → contains "-" b = false → contains "-" c = false →
  split ["-"%char] (a +:+ String "-" (b +:+ String "-" c)) = [a; b; c].
Proof. intros Ha Hb Hc. by rewrite split_app_sep, split_dash_2. Qed.

(** ** Full dates *)

(** X10.  A text [yyyy-mm-dd] (or with slashes): four digits, a month from
    1 to 12 with or without its zero, and a rest that starts like a day and
    holds no dash.  The date comes out with the month and the rest padded
    to two characters; the rest is not checked any further. *)
Theorem year_month_day_is_padded (x : cell) (y m d : string) :
  date_text x = y +:+ "-" +:+ m +:+ "-" +:+ d →
  is_year y = true → m ∈ month_texts →
  re_match month_re d = true → contains "-" d = false →
  normalize_date x = Date (y +:+ "-" +:+ zfill 2 m +:+ "-" +:+ zfill 2 d).
Proof.
  intros Htext Hy Hm Hd Hdash.
  rewrite !append_String, !append_empty in Htext.
  rewrite normalize_date_unfold, Htext.
  unfold patterns. cbn [List.find snd]. unfold re_match at 1. cbn [match_k].
  rewrite match_year, match_dash, match_month_dash by done.
  fold (re_match month_re d). rewrite Hd.
  destruct (get_date_by_format_cases (y +:+ String "-" (m +:+ String "-" d)))
    as (_ & _ & _ & _ & ->).
  rewrite split_dash_3 by auto using year_no_dash, month_no_dash.
  by rewrite zfill_year.
Qed.

Lemma year_month_day_is_padded_witness :
  normalize_date (Str " 2019/3/07 ") = Date ("2019" +:+ "-" +:+ zfill 2 "3" +:+ "-" +:+ zfill 2 "07").
Proof.
  apply (year_month_day_is_padded (Str " 2019/3/07 ") "2019" "3" "07");
    [reflexivity|reflexivity| |reflexivity|reflexivity].
  apply (bool_decide_unpack _). by vm_compute.
Defined.

(** X11.  A text [dd-mm-yyyy] whose day is at most 12 is turned round to
    [yyyy-mm-dd], day and month padded. *)
Theorem day_month_year_is_turned (x : cell) (d m y : string) :
  date_text x = d +:+ "-" +:+ m +:+ "-" +:+ y →
  d ∈ month_texts → m ∈ month_texts → is_year y = true →
  normalize_date x = Date (y +:+ "-" +:+ zfill 2 m +:+ "-" +:+ zfill 2 d).
Proof.
  intros Htext Hd Hm Hy.
  rewrite !append_String, !append_empty in Htext.
  rewrite normalize_date_unfold, Htext.
  unfold patterns. cbn [List.find snd]. unfold re_match at 1. cbn [match_k].
  rewrite match_year_on_month by done.
  unfold re_match at 1. cbn [match_k].
  rewrite !match_month_dash by done.
  rewrite match_year_whole by done.
  destruct (get_date_by_format_cases (d +:+ String "-" (m +:+ String "-" y)))
    as (_ & _ & _ & -> & _).
  rewrite split_dash_3 by auto using year_no_dash, month_no_dash.
  by rewrite zfill_year.
Qed.

Lemma day_month_year_is_turned_witness :
  normalize_date (Str "7/11/2021") = Date ("2021" +:+ "-" +:+ zfill 2 "11" +:+ "-" +:+ zfill 2 "7").
Proof.
  apply (day_month_year_is_turned (Str "7/11/2021") "7" "11" "2021");
    [reflexivity| | |reflexivity]; apply (bool_decide_unpack _); by vm_compute.
Defined.

(** X12.  A text [dd-mm-yyyy] whose day is written with two digits and is
    13 or more matches no pattern, the group of the day being the group of
    the months: the date comes out as the default ["0001-01-01"], whatever
    follows the day. *)
Theorem day_after_the_twelfth_is_lost (x : cell) (n : nat) (r : string) :
  13 ≤ n ≤ 31 →
  date_text x = two_digits n +:+ "-" +:+ r →
  normalize_date x = Date "0001-01-01".
Proof.
  intros Hn Htext. rewrite normalize_date_unfold, Htext. clear Htext.
  assert (n ∈ seq 13 19) as Hin by (apply elem_of_seq; lia).
  cbn [seq] in Hin. rewrite !elem_of_cons, elem_of_nil in Hin.
  repeat (destruct Hin as [->|Hin]); [..|destruct Hin]; by vm_compute.
Qed.

Lemma day_after_the_twelfth_is_lost_witness :
  13 ≤ 25 ≤ 31 ∧ normalize_date (Str "25/12/2020") = Date "0001-01-01".
Proof.
  split; [lia|].
  apply (day_after_the_twelfth_is_lost (Str "25/12/2020") 25 "12-2020"); [lia|reflexivity].
Defined.

(** X13.  A text that starts like [yyyy-mm-] and does not go on like a day
    makes [normalize_date] raise [ValueError] instead of returning the
    default: the pattern [yyyy-mm] matches its start and the unpacking
    [y, m = s.split("-")] gets three parts or more. *)
Theorem year_month_and_more_raises (x : cell) (y m r : string) :
  date_text x = y +:+ "-" +:+ m +:+ "-" +:+ r →
  is_year y = true → m ∈ month_texts →
  re_match month_re r = false →
  normalize_date x = ValueError.
Proof.
  intros Htext Hy Hm Hr.
  rewrite !append_String, !append_empty in Htext.
  rewrite normalize_date_unfold, Htext.
  unfold patterns. cbn [List.find snd].
  unfold re_match at 1. cbn [match_k].
  rewrite match_year, match_dash, match_month_dash by done.
  fold (re_match month_re r). rewrite Hr.
  unfold re_match at 1. cbn [match_k]. rewrite match_month_on_year by done.
  unfold re_match at 1. cbn [match_k]. rewrite match_month_on_year by done.
  unfold re_match at 1. cbn [match_k].
  rewrite match_year, match_dash, match_month_start by done.
  destruct (get_date_by_format_cases (y +:+ String "-" (m +:+ String "-" r)))
    as (_ & _ & -> & _).
  rewrite !split_app_sep by auto using year_no_dash, month_no_dash.
  pose proof (split_nonempty ["-"%char] r). by destruct (split ["-"%char] r).
Qed.

Lemma year_month_and_more_raises_witness :
  normalize_date (Str "2020-05-00") = ValueError.
Proof.
  apply (year_month_and_more_raises (Str "2020-05-00") "2020" "05" "00");
    [reflexivity|reflexivity| |reflexivity].
  apply (bool_decide_unpack _). by vm_compute.
Defined.

(** X14.  Dates with parts missing are completed with [01]: a year alone
    gives the first of January, a month and a year in either order give the
    first of the month. *)
Theorem missing_parts_are_first (x : cell) (y m : string) :
  is_year y = true → m ∈ month_texts →
  (date_text x = y → normalize_date x = Date (y +:+ "-01-01"))
  ∧ (date_text x = m +:+ "-" +:+ y →
     normalize_date x = Date (y +:+ "-" +:+ zfill 2 m +:+ "-01"))
  ∧ (date_text x = y +:+ "-" +:+ m →
     normalize_date x = Date (y +:+ "-" +:+ zfill 2 m +:+ "-01")).
Proof.
  intros Hy Hm. split; [|split]; intros Htext;
    rewrite ?append_String, ?append_empty in Htext;
    rewrite normalize_date_unfold, Htext; unfold patterns; cbn [List.find snd].
  - unfold re_match at 1. cbn [match_k]. rewrite match_year_whole by done. cbn [match_k dash].
    unfold re_match at 1. cbn [match_k].
    rewrite <-(append_empty y) at 1. change ("" +:+ y) with y.
    destruct (is_year_inv y Hy) as (a & b & c & d & -> & Ha & Hb & Hc & Hd).
    rewrite match_month_on_digits by done.
    unfold re_match at 1. cbn [match_k]. rewrite match_month_on_digits by done.
    unfold re_match at 1. cbn [match_k].
    rewrite (match_year_whole (String a (String b (String c (String d ""))))) by done.
    cbn [match_k dash].
    unfold re_match at 1.
    rewrite (match_year_whole (String a (String b (String c (String d ""))))) by done.
    destruct (get_date_by_format_cases (String a (String b (String c (String d "")))))
      as (-> & _).
    by rewrite zfill_year.
  - unfold re_match at 1. cbn [match_k]. rewrite match_year_on_month by done.
    unfold re_match at 1. cbn [match_k]. rewrite match_month_dash by done.
    destruct (is_year_inv y Hy) as (a & b & c & d & Ey & Ha & Hb & Hc & Hd).
    rewrite Ey at 1. rewrite match_month_on_digits by done.
    unfold re_match at 1. cbn [match_k].
    rewrite match_month_dash, match_year_whole by done.
    destruct (get_date_by_format_cases (m +:+ String "-" y)) as (_ & -> & _).
    rewrite split_dash_2 by auto using year_no_dash, month_no_dash.
    by rewrite zfill_year.
  - unfold re_match at 1. cbn [match_k]. rewrite match_year, match_dash by done.
    assert (match_k month_re m (λ s, match_k dash s (λ s0, match_k month_re s0 (λ _, true)))
            = false) as ->.
    { clear -Hm. month_cases Hm; by cbn. }
    unfold re_match at 1. cbn [match_k]. rewrite match_month_on_year by done.
    unfold re_match at 1. cbn [match_k]. rewrite match_month_on_year by done.
    unfold re_match at 1. cbn [match_k]. rewrite match_year, match_dash by done.
    rewrite <-(append_empty m) at 1. change ("" +:+ m) with m.
    assert (match_k month_re m (λ _, true) = true) as ->.
    { clear -Hm. month_cases Hm; by cbn. }
    destruct (get_date_by_format_cases (y +:+ String "-" m)) as (_ & _ & -> & _).
    rewrite split_dash_2 by auto using year_no_dash, month_no_dash.
    by rewrite zfill_year.
Qed.

Lemma missing_parts_are_first_witness :
  normalize_date (Str "3/2020") = Date ("2020" +:+ "-" +:+ zfill 2 "3" +:+ "-01").
Proof.
  assert (("3" : string) ∈ month_texts) as Hm
    by (apply list_elem_of_further, list_elem_of_further, list_elem_of_here).
  apply (proj1 (proj2 (missing_parts_are_first (Str "3/2020") "2020" "3" eq_refl Hm))).
  reflexivity.
Defined.

(** X9.  A value whose text, once stripped, does not start with a digit
    (a missing value, an empty string, a word) comes out as the default
    date ["0001-01-01"]. *)
Theorem no_leading_digit_gives_default (x : cell) :
  starts_with_digit (date_text x) = false →
  normalize_date x = Date "0001-01-01".
Proof.
  intros Hx. rewrite normalize_date_unfold.
  destruct (date_text x) as [|c r]; [done|]. cbn in Hx.
  destruct (not_digit_facts c Hx) as (H0 & H1 & H19).
  unfold patterns, re_match, year_re, month_re, dash.
  cbn -[is_digit in_range]. by rewrite Hx, H0, H1, H19.
Qed.

Lemma no_leading_digit_gives_default_witness :
  normalize_date NaN = Date "0001-01-01" .
Proof. apply (no_leading_digit_gives_default NaN). reflexivity. Defined.
